(** * Cart and checkout engine of the rental-inventory point of sale

    A shallow embedding of the parts of [home.py] and [database.py] that
    carry business logic: the amount-in-words routine of [PDFGenerator],
    the [AdvancePaymentDialog] handlers, the [CartWidget] operations
    ([add_to_cart], [remove_from_cart], [clear_cart], [checkout],
    [process_advance_payment]) and the product table of [Database].

    Conventions.
    - Python [int] is [Z]; Python [float] is the primitive binary64 [float]
      of the standard library, so arithmetic on amounts rounds exactly as
      the interpreter does.
    - A Python exception is a value of [exn]; code that may raise returns a
      [result].
    - Modal dialogs are answered by explicit arguments (the reply to a
      question box, the customer form, the chosen file path, ...).
    - The widgets' appearance and the layout of the PDF are not modelled;
      message boxes are recorded as values of [message]. *)

From Stdlib Require Import ZArith Bool List String Ascii Lia.
From Stdlib Require Import DecimalString Floats.
From stdpp Require Import strings gmap.
Import ListNotations.

(* Amounts such as 19.99 are meant as the nearest binary64 value, which is
   what the Python literal denotes. *)
Set Warnings "-inexact-float".

Local Open Scope Z_scope.

(* ================================================================== *)
(** ** Python runtime helpers *)
(* ================================================================== *)

Module Py.

(** The exception classes that the modelled code can raise or catch. *)
Inductive exn : Type :=
| ValueError
| TypeError
| IndexError
| OverflowError
| OSError.

Definition exn_eqb (a b : exn) : bool :=
  match a, b with
  | ValueError, ValueError | TypeError, TypeError
  | IndexError, IndexError | OverflowError, OverflowError
  | OSError, OSError => true
  | _, _ => false
  end.

(** An evaluation either returns a value or raises. *)
Inductive result (A : Type) : Type :=
| Ok (a : A)
| Raise (e : exn).
Arguments Ok {A} a.
Arguments Raise {A} e.

Definition bind {A B} (r : result A) (k : A -> result B) : result B :=
  match r with
  | Ok a => k a
  | Raise e => Raise e
  end.

(** [l[i]] with Python's negative indices. *)
Definition index {A} (l : list A) (i : Z) : result A :=
  let n := Z.of_nat (List.length l) in
  let j := if i <? 0 then i + n else i in
  if (0 <=? j) && (j <? n) then
    match nth_error l (Z.to_nat j) with
    | Some a => Ok a
    | None => Raise IndexError
    end
  else Raise IndexError.

(** [str(n)] for an [int]. *)
Definition str (n : Z) : string := NilZero.string_of_int (Z.to_int n).

(** The characters removed by [str.strip()] in the ASCII range. *)
Definition is_space (c : ascii) : bool :=
  let n := Z.of_nat (nat_of_ascii c) in
  ((9 <=? n) && (n <=? 13)) || ((28 <=? n) && (n <=? 32)).

Fixpoint lstrip (s : string) : string :=
  match s with
  | String c s' => if is_space c then lstrip s' else s
  | EmptyString => EmptyString
  end.

Fixpoint rstrip (s : string) : string :=
  match s with
  | EmptyString => EmptyString
  | String c s' =>
      match rstrip s' with
      | EmptyString => if is_space c then EmptyString else String c EmptyString
      | t => String c t
      end
  end.

Definition strip (s : string) : string := rstrip (lstrip s).

(** Magnitude of a finite float [m * 2^e] cut towards zero. *)
Definition magnitude_trunc (m : positive) (e : Z) : Z :=
  if 0 <=? e then Z.shiftl (Zpos m) e else Z.shiftr (Zpos m) (- e).

(** Magnitude of a finite float [m * 2^e] rounded to the nearest integer,
    ties to even, as [round] does. *)
Definition magnitude_round (m : positive) (e : Z) : Z :=
  if 0 <=? e then Z.shiftl (Zpos m) e
  else
    let d := Z.shiftl 1 (- e) in
    let q := Zpos m / d in
    let r := Zpos m mod d in
    match 2 * r ?= d with
    | Lt => q
    | Gt => q + 1
    | Eq => if Z.even q then q else q + 1
    end.

Definition signed (s : bool) (a : Z) : Z := if s then - a else a.

(** [int(x)] for a [float]. *)
Definition int_of_float (x : float) : result Z :=
  match Prim2SF x with
  | S754_zero _ => Ok 0
  | S754_finite s m e => Ok (signed s (magnitude_trunc m e))
  | S754_infinity _ => Raise OverflowError
  | S754_nan => Raise ValueError
  end.

(** [round(x)] for a [float], one argument: the nearest [int]. *)
Definition round (x : float) : result Z :=
  match Prim2SF x with
  | S754_zero _ => Ok 0
  | S754_finite s m e => Ok (signed s (magnitude_round m e))
  | S754_infinity _ => Raise OverflowError
  | S754_nan => Raise ValueError
  end.

(** The [float] an [int] is converted to when it meets a [float] in an
    arithmetic operation (nearest, ties to even). *)
Definition float_of_int (n : Z) : float :=
  SF2Prim (binary_normalize prec emax n 0 false).

(** [int(s)] for a [str]: optional surrounding blanks, an optional sign
    and decimal digits.  Digit grouping with underscores is left out. *)
Definition int_of_str (s : string) : result Z :=
  let t := strip s in
  let body := match t with
              | String "+"%char u =>
                  match u with
                  | String "-"%char _ => EmptyString
                  | _ => u
                  end
              | _ => t
              end in
  match body with
  | EmptyString | String "-"%char EmptyString => Raise ValueError
  | _ =>
      match NilZero.int_of_string body with
      | Some d => Ok (Z.of_int d)
      | None => Raise ValueError
      end
  end.

(** [sum(xs)] over floats: the accumulator starts at the integer 0. *)
Definition sum_float (xs : list float) : float :=
  fold_left PrimFloat.add xs 0%float.

Definition sum_int (xs : list Z) : Z := fold_left Z.add xs 0.

End Py.

Notation "'do' x <~ e ;; k" := (Py.bind e (fun x => k))
  (at level 10, x name, e at level 99, k at level 200).

(* ================================================================== *)
(** ** Data passed between the widgets *)
(* ================================================================== *)

(** An entry of [CartWidget.cart_items]: a dict with the keys ['id'],
    ['name'], ['price'] and ['quantity'].  ['price'] holds the total of the
    line, not the price of one unit. *)
Module Item.
Record item : Type := {
  id : Z;
  name : string;
  price : float;
  quantity : Z
}.
End Item.
Abbreviation item := Item.item.

(** The four strings returned by [CartWidget.get_customer_info]. *)
Record customer : Type := {
  customer_name : string;
  customer_address : string;
  customer_phone : string;
  customer_email : string
}.

(* ================================================================== *)
(** ** [PDFGenerator] *)
(* ================================================================== *)

Module PDFGenerator.
Import Py.

Definition units : list string :=
  [""; "One"; "Two"; "Three"; "Four"; "Five"; "Six"; "Seven"; "Eight"; "Nine"]%string.
Definition teens : list string :=
  ["Ten"; "Eleven"; "Twelve"; "Thirteen"; "Fourteen"; "Fifteen"; "Sixteen";
   "Seventeen"; "Eighteen"; "Nineteen"]%string.
Definition tens : list string :=
  [""; ""; "Twenty"; "Thirty"; "Forty"; "Fifty"; "Sixty"; "Seventy"; "Eighty";
   "Ninety"]%string.

(** The inner helper of [number_to_words]. *)
Definition convert_two_digits (num : Z) : result string :=
  if num <? 10 then index units num
  else if num <? 20 then index teens (num - 10)
  else
    let ten := num / 10 in
    let unit := num mod 10 in
    if ten <? Z.of_nat (List.length tens) then
      do t <~ index tens ten ;;
      if 0 <? unit then (do u <~ index units unit ;; Ok (t +:+ " " +:+ u))
      else Ok t
    else Ok (str num).

(** The [if]/[elif] chain of [number_to_words] that builds the text of the
    whole rupees, before it is stripped. *)
Definition rupees_text (rupees : Z) : result string :=
  if rupees =? 0 then Ok ""
  else if rupees <? 100 then convert_two_digits rupees
  else if rupees <? 1000 then
    do h <~ index units (rupees / 100) ;;
    do r <~ convert_two_digits (rupees mod 100) ;;
    Ok (h +:+ " Hundred " +:+ r)
  else if rupees <? 100000 then
    do h <~ convert_two_digits (rupees / 1000) ;;
    do r <~ convert_two_digits (rupees mod 1000) ;;
    Ok (h +:+ " Thousand " +:+ r)
  else
    do h <~ convert_two_digits (rupees / 100000) ;;
    do r <~ convert_two_digits (rupees mod 100000) ;;
    Ok (h +:+ " Lakh " +:+ r).

Definition number_to_words (n : float) : result string :=
  if PrimFloat.eqb n 0 then Ok "Zero"
  else
    do rupees <~ int_of_float n ;;
    do paise <~ round (PrimFloat.mul (PrimFloat.sub n (float_of_int rupees)) 100) ;;
    do result <~ rupees_text rupees ;;
    let result := strip result +:+ " Rupees" in
    if 0 <? paise then
      (do p <~ convert_two_digits paise ;;
       Ok (result +:+ " and " +:+ p +:+ " Paise"))
    else Ok result.

(** A line of the items table of the invoice. *)
Record line : Type := {
  line_index : Z;
  line_name : string;
  line_quantity : Z;
  line_unit_price : float;
  line_total : float
}.

(** What [generate_invoice] puts on the page (fonts, colours and the
    formatting of numbers left out). *)
Record invoice : Type := {
  inv_file_path : string;
  inv_payment_status : string;
  inv_payment_method : string;
  inv_due_date : option (option Z);  (* the "Due Date" line, when printed *)
  inv_lines : list line;
  inv_subtotal : float;
  inv_grand_total : float;
  inv_advance_rows : option (float * float);  (* "Advance Paid", "Balance Due" *)
  inv_amount_in_words : string;
  inv_customer : customer
}.

Fixpoint table_lines (idx : Z) (cart_items : list item) : list line :=
  match cart_items with
  | [] => []
  | it :: rest =>
      let quantity := Item.quantity it in
      let unit_price :=
        if 0 <? quantity
        then PrimFloat.div (Item.price it) (float_of_int quantity)
        else Item.price it in
      {| line_index := idx; line_name := Item.name it;
         line_quantity := quantity; line_unit_price := unit_price;
         line_total := Item.price it |} :: table_lines (idx + 1) rest
  end.

Definition or_not_provided (s : string) : string :=
  if String.eqb s "" then "Not provided"%string else s.

(** [generate_invoice].  [build] is the outcome of [doc.build(elements)],
    which writes the file. *)
Definition generate_invoice (build : result unit)
    (cart_items : list item) (total_amount : float) (payment_type : string)
    (advance_amount balance_amount : float) (due_date : option Z)
    (c : customer) (payment_method : string) (file_path : string)
  : result invoice :=
  let partial :=
    String.eqb payment_type "advance" && PrimFloat.ltb 0 balance_amount in
  let payment_status :=
    if partial then "Partially Paid"%string else "Paid"%string in
  let subtotal := total_amount in
  let grand_total := subtotal in
  do amount_in_words <~
    number_to_words (if partial then advance_amount else grand_total) ;;
  do _built <~ build ;;
  Ok {| inv_file_path := file_path;
        inv_payment_status := payment_status;
        inv_payment_method := payment_method;
        inv_due_date := if partial then Some due_date else None;
        inv_lines := table_lines 1 cart_items;
        inv_subtotal := subtotal;
        inv_grand_total := grand_total;
        inv_advance_rows :=
          if partial then Some (advance_amount, balance_amount) else None;
        inv_amount_in_words := amount_in_words;
        inv_customer :=
          {| customer_name := customer_name c;
             customer_address := customer_address c;
             customer_phone := or_not_provided (customer_phone c);
             customer_email := or_not_provided (customer_email c) |} |}.

End PDFGenerator.

(* ================================================================== *)
(** ** [Database]: the product table *)
(* ================================================================== *)

Module Database.
Import Py.

(** A value stored in a column. *)
Inductive sqlval : Type :=
| SqlNull
| SqlInt (z : Z)
| SqlReal (x : float)
| SqlText (s : string).

(** [int(v)] for a column value. *)
Definition int_of_value (v : sqlval) : result Z :=
  match v with
  | SqlNull => Raise TypeError
  | SqlInt z => Ok z
  | SqlReal x => int_of_float x
  | SqlText s => int_of_str s
  end.

(** The columns of table [products] after the primary key, typed as
    [init_db] declares them; [is_available] is a BOOLEAN column, which
    SQLite stores as the integer 0 or 1. *)
Record product : Type := {
  name : string;
  description : string;
  price_per_hour : float;
  image_path : string;
  stock_quantity : Z;
  is_available : Z;
  created_at : string
}.

(** What [SELECT * FROM products] yields for one row: the columns in the
    order of the CREATE TABLE statement, [id] first. *)
Definition row (product_id : Z) (p : product) : list sqlval :=
  [ SqlInt product_id;            (* 0  id              *)
    SqlText (name p);             (* 1  name            *)
    SqlText (description p);      (* 2  description     *)
    SqlReal (price_per_hour p);   (* 3  price_per_hour  *)
    SqlText (image_path p);       (* 4  image_path      *)
    SqlInt (stock_quantity p);    (* 5  stock_quantity  *)
    SqlInt (is_available p);      (* 6  is_available    *)
    SqlText (created_at p) ].     (* 7  created_at      *)

(** [get_product]: [cursor.fetchone()], [None] when no row has the id. *)
Definition get_product (db : gmap Z product) (product_id : Z)
  : option (list sqlval) :=
  row product_id <$> db !! product_id.

Definition set_stock (stock : Z) (p : product) : product :=
  {| name := name p; description := description p;
     price_per_hour := price_per_hour p; image_path := image_path p;
     stock_quantity := stock; is_available := is_available p;
     created_at := created_at p |}.

Definition set_available (available : Z) (p : product) : product :=
  {| name := name p; description := description p;
     price_per_hour := price_per_hour p; image_path := image_path p;
     stock_quantity := stock_quantity p; is_available := available;
     created_at := created_at p |}.

(** [update_product] with the keyword arguments [stock] and [available]
    (the two that the cart and the availability toggle pass): an UPDATE
    of the row with that id, which changes nothing when there is none. *)
Definition update_product (db : gmap Z product) (product_id : Z)
    (stock : option Z) (available : option Z) : gmap Z product :=
  let db1 := match stock with
             | Some v => alter (set_stock v) product_id db
             | None => db
             end in
  match available with
  | Some v => alter (set_available v) product_id db1
  | None => db1
  end.

End Database.

(* ================================================================== *)
(** ** [AdvancePaymentDialog] *)
(* ================================================================== *)

Module AdvancePaymentDialog.

(** The items of [payment_combo]. *)
Definition payment_methods : list string :=
  ["Cash"; "Credit Card"; "Debit Card"; "UPI"; "Bank Transfer"]%string.

(** The attributes of the dialog.  A [QDate] is a day number.
    [payment_type] is set only by the two accepting handlers. *)
Record dialog : Type := {
  total_amount : float;
  advance_amount : float;
  balance_amount : float;
  payment_method : string;
  due_date : Z;
  payment_type : option string
}.

(** [__init__], opened on day [today]. *)
Definition init (total : float) (today : Z) : dialog :=
  {| total_amount := total;
     advance_amount := 0;
     balance_amount := total;
     payment_method := "Cash"%string;
     due_date := today + 7;
     payment_type := None |}.

Definition on_payment_method_changed (method : string) (d : dialog) : dialog :=
  {| total_amount := total_amount d;
     advance_amount := advance_amount d;
     balance_amount := balance_amount d;
     payment_method := method;
     due_date := due_date d;
     payment_type := payment_type d |}.

Definition on_advance_changed (value : float) (d : dialog) : dialog :=
  {| total_amount := total_amount d;
     advance_amount := value;
     balance_amount := PrimFloat.sub (total_amount d) value;
     payment_method := payment_method d;
     due_date := due_date d;
     payment_type := payment_type d |}.

(** The outcome of pressing "Process Advance Payment". *)
Inductive outcome : Type :=
| InvalidAmount                 (* warning box, the dialog stays open *)
| Accepted (d : dialog).

(** [accept_advance]; [date] is what [due_date_edit.date()] returns. *)
Definition accept_advance (date : Z) (d : dialog) : outcome :=
  if PrimFloat.leb (advance_amount d) 0 then InvalidAmount
  else
    Accepted
      {| total_amount := total_amount d;
         advance_amount := advance_amount d;
         balance_amount := balance_amount d;
         payment_method := payment_method d;
         due_date := date;
         payment_type := Some "advance"%string |}.

(** [accept_full] has no refusal: it returns the accepted dialog. *)
Definition accept_full (d : dialog) : dialog :=
  {| total_amount := total_amount d;
     advance_amount := total_amount d;
     balance_amount := 0;
     payment_method := payment_method d;
     due_date := due_date d;
     payment_type := Some "full"%string |}.

(** What the user does in the open dialog.  The widgets deliver their
    values to the handlers: the combo box one of its items, the spin box
    its new value, the date edit its date when "Process Advance Payment"
    is pressed.  The spin box is set up with [setRange(0, total_amount)]
    and the date edit with [setMinimumDate(QDate.currentDate())]; the
    handlers do not rely on either, and neither is assumed here. *)
Inductive event : Type :=
| SelectMethod (i : nat)          (* currentTextChanged, item [i] *)
| ValueChanged (value : float)    (* advance_spin.valueChanged *)
| ProceedClicked (date : Z)       (* accept_advance *)
| FullClicked                     (* accept_full *)
| CancelClicked.                  (* reject *)

(** [exec()]: the events are handled in turn until one closes the
    dialog; [None] is a rejected dialog (cancelled, or the window closed
    with no further event). *)
Fixpoint exec (d : dialog) (events : list event) : option dialog :=
  match events with
  | [] => None
  | SelectMethod i :: rest =>
      match nth_error payment_methods i with
      | Some method => exec (on_payment_method_changed method d) rest
      | None => exec d rest
      end
  | ValueChanged value :: rest => exec (on_advance_changed value d) rest
  | ProceedClicked date :: rest =>
      match accept_advance date d with
      | InvalidAmount => exec d rest
      | Accepted d' => Some d'
      end
  | FullClicked :: _ => Some (accept_full d)
  | CancelClicked :: _ => None
  end.

End AdvancePaymentDialog.

(* ================================================================== *)
(** ** [CartWidget] *)
(* ================================================================== *)

Module CartWidget.
Import Py.
Export Item.

(** The boxes shown to the user, with the values their texts quote. *)
Inductive message : Type :=
| StockLimitReached (stock_available : Z) (product_name : string)
| QuantityUpdated (product_name : string) (new_quantity : Z) (total : float)
| OutOfStock (product_name : string)
| CartUpdated (product_name : string)
| AddedToCart (product_name : string) (price : float)
| RemovedFromCart (name : string)
| EmptyCart
| StockIssue (current_stock : Database.sqlval) (name : string)
             (requested_quantity : Z)
| StockCheckIssue (name : string)
| PaymentSuccessful (pdf_file : string) (total : float) (total_quantity : Z)
                    (customer_name : string)
| AdvanceProcessed (pdf_file : string) (total advance balance : float)
                   (due_date : Z) (total_quantity : Z) (customer_name : string)
| FailedToGeneratePDF (e : exn)
| Unhandled (e : exn).   (* an exception that leaves the slot *)

Definition new_item (product_id : Z) (product_name : string) (price : float)
  : item :=
  {| id := product_id; name := product_name; price := price; quantity := 1 |}.

(** [add_to_cart]; [reply] answers the "Replace Cart Item" question, which
    is asked only when the cart holds another product. *)
Definition add_to_cart (reply : bool) (product_id : Z) (product_name : string)
    (price : float) (stock_available : Z) (cart_items : list item)
  : list item * option message :=
  match cart_items with
  | current_item :: rest =>
      if id current_item =? product_id then
        let current_quantity := quantity current_item in
        let unit_price := price in
        if current_quantity >=? stock_available then
          (cart_items, Some (StockLimitReached stock_available product_name))
        else
          let new_quantity := current_quantity + 1 in
          let total := PrimFloat.mul unit_price (float_of_int new_quantity) in
          ({| id := id current_item; name := name current_item;
              price := total; quantity := new_quantity |} :: rest,
           Some (QuantityUpdated product_name new_quantity total))
      else if reply then
        if stock_available <=? 0 then
          (cart_items, Some (OutOfStock product_name))
        else
          ([new_item product_id product_name price],
           Some (CartUpdated product_name))
      else (cart_items, None)
  | [] =>
      if stock_available <=? 0 then ([], Some (OutOfStock product_name))
      else
        ([new_item product_id product_name price],
         Some (AddedToCart product_name price))
  end.

(** [list.pop(row)] for an index already known to be in range. *)
Fixpoint pop (row : nat) (l : list item) : list item :=
  match row, l with
  | _, [] => []
  | O, _ :: rest => rest
  | S k, x :: rest => x :: pop k rest
  end.

Definition remove_from_cart (row : Z) (cart_items : list item)
  : list item * option message :=
  if (0 <=? row) && (row <? Z.of_nat (List.length cart_items)) then
    match nth_error cart_items (Z.to_nat row) with
    | Some removed_item =>
        (pop (Z.to_nat row) cart_items, Some (RemovedFromCart (name removed_item)))
    | None => (cart_items, None)
    end
  else (cart_items, None).

(** [clear_cart]; [reply] answers the "Clear Cart" question. *)
Definition clear_cart (reply : bool) (cart_items : list item) : list item :=
  match cart_items with
  | [] => []
  | _ => if reply then [] else cart_items
  end.

(** The widget's cart, the database it talks to, and the invoices
    written so far (newest first). *)
Record state : Type := {
  db : gmap Z Database.product;
  cart_items : list item;
  files : list PDFGenerator.invoice
}.

(** Membership in the tuple of an [except] clause. *)
Definition caught (e : exn) (classes : list exn) : bool :=
  existsb (exn_eqb e) classes.

(** The stock check that opens [checkout].  [Ok None]: every line passed;
    [Ok (Some m)]: box [m] is shown and the slot returns. *)
Fixpoint check_stock (db : gmap Z Database.product) (items : list item)
  : result (option message) :=
  match items with
  | [] => Ok None
  | it :: rest =>
      match Database.get_product db (id it) with
      | Some product =>
          match (do v <~ index product 6 ;; Database.int_of_value v) with
          | Ok current_stock =>
              let requested_quantity := quantity it in
              if current_stock <? requested_quantity then
                Ok (Some (StockIssue (Database.SqlInt current_stock) (name it)
                                     requested_quantity))
              else check_stock db rest
          | Raise e =>
              if caught e [ValueError; TypeError; IndexError]
              then Ok (Some (StockCheckIssue (name it)))
              else Raise e
          end
      | None => check_stock db rest
      end
  end.

(** The stock check that opens [process_advance_payment]: the column is
    read outside the [try], and the box quotes it unconverted. *)
Fixpoint check_stock_advance (db : gmap Z Database.product) (items : list item)
  : result (option message) :=
  match items with
  | [] => Ok None
  | it :: rest =>
      match Database.get_product db (id it) with
      | Some product =>
          do current_stock <~ index product 6 ;;
          let requested_quantity := quantity it in
          match Database.int_of_value current_stock with
          | Ok n =>
              if n <? requested_quantity then
                Ok (Some (StockIssue current_stock (name it) requested_quantity))
              else check_stock_advance db rest
          | Raise e =>
              if caught e [ValueError; TypeError]
              then Ok (Some (StockCheckIssue (name it)))
              else Raise e
          end
      | None => check_stock_advance db rest
      end
  end.

(** "Update stock in database (deduct quantities purchased)": the loop
    shared by both checkouts.  The second component is an exception that
    leaves the loop; the [print] of a caught one is not recorded. *)
Fixpoint deduct_stock (db : gmap Z Database.product) (items : list item)
  : gmap Z Database.product * option exn :=
  match items with
  | [] => (db, None)
  | it :: rest =>
      match Database.get_product db (id it) with
      | Some product =>
          match (do v <~ index product 6 ;; Database.int_of_value v) with
          | Ok current_stock =>
              let quantity_purchased := quantity it in
              let new_stock := current_stock - quantity_purchased in
              deduct_stock
                (Database.update_product db (id it) (Some new_stock) None) rest
          | Raise e =>
              if caught e [ValueError; TypeError; IndexError]
              then deduct_stock db rest
              else (db, Some e)
          end
      | None => deduct_stock db rest
      end
  end.

(** What the surroundings answer during a checkout. *)
Record answers : Type := {
  customer_info : option customer;   (* [get_customer_info()] *)
  file_path : string;                (* the save dialog; empty: cancelled *)
  build : result unit;               (* [doc.build] inside generate_invoice *)
  open_reply : bool;                 (* "Do you want to open the PDF?" *)
  open_pdf : result unit             (* os.startfile / subprocess.run *)
}.

Definition total_of (items : list item) : float :=
  sum_float (map price items).
Definition total_quantity_of (items : list item) : Z :=
  sum_int (map quantity items).

(** The end of both checkouts, from the success box on: the PDF is
    opened on request, then the cart is cleared; an exception raised by
    the opening reaches the handler of the enclosing [try]. *)
Definition finish (a : answers) (s : state) (db' : gmap Z Database.product)
    (files' : list PDFGenerator.invoice) (msg : message)
  : state * list message :=
  match (if open_reply a then open_pdf a else Ok tt) with
  | Raise e =>
      ({| db := db'; cart_items := cart_items s; files := files' |},
       [msg; FailedToGeneratePDF e])
  | Ok _ =>
      ({| db := db'; cart_items := []; files := files' |}, [msg])
  end.

(** [checkout]: the "Full Payment" button. *)
Definition checkout (a : answers) (s : state) : state * list message :=
  match cart_items s with
  | [] => (s, [EmptyCart])
  | _ =>
    match check_stock (db s) (cart_items s) with
    | Raise e => (s, [Unhandled e])
    | Ok (Some m) => (s, [m])
    | Ok None =>
      match customer_info a with
      | None => (s, [])
      | Some c =>
        if String.eqb (file_path a) "" then (s, [])
        else
          let total := total_of (cart_items s) in
          match PDFGenerator.generate_invoice (build a) (cart_items s) total
                  "full" total 0 None c "Full Payment" (file_path a) with
          | Raise e => (s, [FailedToGeneratePDF e])
          | Ok inv =>
            let pdf_file := PDFGenerator.inv_file_path inv in
            let files' := inv :: files s in
            match deduct_stock (db s) (cart_items s) with
            | (db', Some e) =>
                ({| db := db'; cart_items := cart_items s; files := files' |},
                 [FailedToGeneratePDF e])
            | (db', None) =>
                finish a s db' files'
                  (PaymentSuccessful pdf_file total
                     (total_quantity_of (cart_items s)) (customer_name c))
            end
          end
      end
    end
  end.

(** [process_advance_payment]: the "Pay Advance" button, pressed on day
    [today]; [events] is what the user does in the advance dialog. *)
Definition process_advance_payment (today : Z)
    (events : list AdvancePaymentDialog.event) (a : answers) (s : state)
  : state * list message :=
  match cart_items s with
  | [] => (s, [EmptyCart])
  | _ =>
    match check_stock_advance (db s) (cart_items s) with
    | Raise e => (s, [Unhandled e])
    | Ok (Some m) => (s, [m])
    | Ok None =>
      let total := total_of (cart_items s) in
      match AdvancePaymentDialog.exec
              (AdvancePaymentDialog.init total today) events with
      | None => (s, [])
      | Some advance_dialog =>
        match customer_info a, AdvancePaymentDialog.payment_type advance_dialog with
        | None, _ | _, None => (s, [])
        | Some c, Some payment_type =>
          if String.eqb (file_path a) "" then (s, [])
          else
            let is_advance := String.eqb payment_type "advance" in
            let advance_amount :=
              AdvancePaymentDialog.advance_amount advance_dialog in
            let balance_amount :=
              AdvancePaymentDialog.balance_amount advance_dialog in
            let due_date := AdvancePaymentDialog.due_date advance_dialog in
            match PDFGenerator.generate_invoice (build a) (cart_items s) total
                    payment_type advance_amount balance_amount
                    (if is_advance then Some due_date else None) c
                    (AdvancePaymentDialog.payment_method advance_dialog)
                    (file_path a) with
            | Raise e => (s, [FailedToGeneratePDF e])
            | Ok inv =>
              let pdf_file := PDFGenerator.inv_file_path inv in
              let files' := inv :: files s in
              match deduct_stock (db s) (cart_items s) with
              | (db', Some e) =>
                  ({| db := db'; cart_items := cart_items s; files := files' |},
                   [FailedToGeneratePDF e])
              | (db', None) =>
                  let total_quantity := total_quantity_of (cart_items s) in
                  finish a s db' files'
                    (if is_advance && PrimFloat.ltb 0 balance_amount then
                       AdvanceProcessed pdf_file total advance_amount
                         balance_amount due_date total_quantity (customer_name c)
                     else
                       PaymentSuccessful pdf_file total total_quantity
                         (customer_name c))
              end
            end
        end
      end
    end
  end.

(** A press of a button of the customer store that reaches the cart. *)
Inductive op : Type :=
| Add (reply : bool) (product_id : Z) (product_name : string) (price : float)
      (stock_available : Z)
| Remove (row : Z)
| Clear (reply : bool)
| Checkout (a : answers)
| PayAdvance (today : Z) (events : list AdvancePaymentDialog.event)
             (a : answers).

Definition with_cart (s : state) (items : list item) : state :=
  {| db := db s; cart_items := items; files := files s |}.

Definition step (o : op) (s : state) : state :=
  match o with
  | Add reply product_id product_name price stock_available =>
      with_cart s (fst (add_to_cart reply product_id product_name price
                          stock_available (cart_items s)))
  | Remove row => with_cart s (fst (remove_from_cart row (cart_items s)))
  | Clear reply => with_cart s (clear_cart reply (cart_items s))
  | Checkout a => fst (checkout a s)
  | PayAdvance today events a => fst (process_advance_payment today events a s)
  end.

(** The states passed through by a sequence of presses, the first one
    included. *)
Fixpoint trace (ops : list op) (s : state) : list state :=
  match ops with
  | [] => [s]
  | o :: rest => s :: trace rest (step o s)
  end.

(** The widget as [__init__] leaves it. *)
Definition initial (db0 : gmap Z Database.product) : state :=
  {| db := db0; cart_items := []; files := [] |}.

End CartWidget.

(* ================================================================== *)
(** ** A small shop used in the examples *)
(* ================================================================== *)

Module Shop.
Import CartWidget.

(** A product with three units in stock, marked available. *)
Definition chair : Database.product :=
  {| Database.name := "Chair";
     Database.description := "";
     Database.price_per_hour := 500;
     Database.image_path := "";
     Database.stock_quantity := 3;
     Database.is_available := 1;
     Database.created_at := "2024-01-01 10:00:00" |}.

Definition products : gmap Z Database.product := {[ 1 := chair ]}.

(** The cart after pressing "Add to Cart" on the chair [n] times. *)
Definition chairs (n : nat) : state :=
  Nat.iter n (step (Add false 1 "Chair" 500 3)) (initial products).

Definition alice : customer :=
  {| customer_name := "Alice"; customer_address := "12 Hill Road";
     customer_phone := ""; customer_email := "" |}.

(** Every dialog answered, the document written, the PDF not opened. *)
Definition smooth : answers :=
  {| customer_info := Some alice; file_path := "invoice.pdf";
     build := Py.Ok tt; open_reply := false; open_pdf := Py.Ok tt |}.

(** The same, but the PDF is to be opened and no viewer can be started. *)
Definition no_viewer : answers :=
  {| customer_info := Some alice; file_path := "invoice.pdf";
     build := Py.Ok tt; open_reply := true; open_pdf := Py.Raise Py.OSError |}.

(** The same, but the document cannot be written. *)
Definition disk_full : answers :=
  {| customer_info := Some alice; file_path := "invoice.pdf";
     build := Py.Raise Py.OSError; open_reply := false; open_pdf := Py.Ok tt |}.

Definition stock_of (s : state) (product_id : Z) : option Z :=
  Database.stock_quantity <$> db s !! product_id.

End Shop.

(** The ways in which [checkout] and [process_advance_payment] give up
    before an invoice is written. *)
Inductive aborted : CartWidget.op -> CartWidget.state -> Prop :=
| abort_stock a s m :
    CartWidget.check_stock (CartWidget.db s) (CartWidget.cart_items s)
      = Py.Ok (Some m) ->
    aborted (CartWidget.Checkout a) s
| abort_identity a s :
    CartWidget.customer_info a = None ->
    aborted (CartWidget.Checkout a) s
| abort_save a s :
    CartWidget.file_path a = ""%string ->
    aborted (CartWidget.Checkout a) s
| abort_render a s c e :
    CartWidget.customer_info a = Some c ->
    PDFGenerator.generate_invoice (CartWidget.build a) (CartWidget.cart_items s)
      (CartWidget.total_of (CartWidget.cart_items s)) "full"
      (CartWidget.total_of (CartWidget.cart_items s)) 0 None c "Full Payment"
      (CartWidget.file_path a) = Py.Raise e ->
    aborted (CartWidget.Checkout a) s
| abort_stock_advance today events a s m :
    CartWidget.check_stock_advance (CartWidget.db s) (CartWidget.cart_items s)
      = Py.Ok (Some m) ->
    aborted (CartWidget.PayAdvance today events a) s
| abort_plan today events a s :
    AdvancePaymentDialog.exec
      (AdvancePaymentDialog.init
         (CartWidget.total_of (CartWidget.cart_items s)) today) events = None ->
    aborted (CartWidget.PayAdvance today events a) s
| abort_identity_advance today events a s :
    CartWidget.customer_info a = None ->
    aborted (CartWidget.PayAdvance today events a) s
| abort_save_advance today events a s :
    CartWidget.file_path a = ""%string ->
    aborted (CartWidget.PayAdvance today events a) s
| abort_render_advance today events a s d payment_type c e :
    AdvancePaymentDialog.exec
      (AdvancePaymentDialog.init
         (CartWidget.total_of (CartWidget.cart_items s)) today) events = Some d ->
    AdvancePaymentDialog.payment_type d = Some payment_type ->
    CartWidget.customer_info a = Some c ->
    PDFGenerator.generate_invoice (CartWidget.build a) (CartWidget.cart_items s)
      (CartWidget.total_of (CartWidget.cart_items s)) payment_type
      (AdvancePaymentDialog.advance_amount d)
      (AdvancePaymentDialog.balance_amount d)
      (if String.eqb payment_type "advance"
       then Some (AdvancePaymentDialog.due_date d) else None)
      c (AdvancePaymentDialog.payment_method d)
      (CartWidget.file_path a) = Py.Raise e ->
    aborted (CartWidget.PayAdvance today events a) s.

(** The invariant of the cart list. *)
Definition single_line (s : CartWidget.state) : Prop :=
  (List.length (CartWidget.cart_items s) <= 1)%nat /\
  forall x y, In x (CartWidget.cart_items s) -> In y (CartWidget.cart_items s) ->
              Item.id x = Item.id y.

(** A text without decimal digits. *)
Definition is_digit (c : ascii) : bool :=
  let n := Z.of_nat (nat_of_ascii c) in (48 <=? n) && (n <=? 57).

Fixpoint in_words (s : string) : bool :=
  match s with
  | EmptyString => true
  | String c s' => negb (is_digit c) && in_words s'
  end.

Fixpoint ends_with (suffix s : string) : bool :=
  if String.eqb s suffix then true
  else match s with
       | EmptyString => false
       | String _ s' => ends_with suffix s'
       end.



(** [convert_two_digits k] succeeds with a text free of digits. *)
Definition spelled (k : Z) : bool :=
  match PDFGenerator.convert_two_digits k with
  | Py.Ok w => in_words w
  | Py.Raise _ => false
  end.

(* ================================================================== *)
(** ** [ProductWidget] and [CustomerStoreWidget.load_products_from_db] *)
(* ================================================================== *)

Module ProductWidget.
Import Py.
Import Database.

(** Truth value of a column value, as [if v] and [bool(v)] take it. *)
Definition truthy (v : sqlval) : bool :=
  match v with
  | SqlNull => false
  | SqlInt z => negb (z =? 0)
  | SqlReal x => negb (PrimFloat.eqb x 0)
  | SqlText s => negb (String.eqb s "")
  end.

(** [float(v)] for a column value.  The conversion of a text is the
    parameter [float_of_str]; an integer column holds at most 64 bits, so
    its conversion does not overflow. *)
Definition float_of_value (float_of_str : string -> result float) (v : sqlval)
  : result float :=
  match v with
  | SqlNull => Raise TypeError
  | SqlInt z => Ok (float_of_int z)
  | SqlReal x => Ok x
  | SqlText s => float_of_str s
  end.

(** The attributes that [__init__] computes from [product_data], and whether
    the "Add to Cart" button is left enabled. *)
Record widget : Type := {
  product_id : sqlval;
  name : sqlval;
  description : sqlval;
  price : float;
  image_path : sqlval;
  stock : Z;
  is_available : bool;
  add_enabled : bool
}.

(** A [try] whose handler, for the listed classes, yields [default]. *)
Definition or_default {A} (classes : list exn) (default : A) (r : result A)
  : result A :=
  match r with
  | Ok a => Ok a
  | Raise e => if existsb (exn_eqb e) classes then Ok default else Raise e
  end.

Definition longer_than (product_data : list sqlval) (n : Z) : bool :=
  n <? Z.of_nat (List.length product_data).

(** [ProductWidget.__init__], the part before the layout is built.  No
    column value is a Python [bool], so of the two ways of reading the
    availability only the second one is taken. *)
Definition init (float_of_str : string -> result float)
    (product_data : list sqlval) : result widget :=
  do product_id <~ index product_data 0 ;;
  do name <~ index product_data 1 ;;
  do d <~ index product_data 2 ;;
  let description := if truthy d then d else SqlText "" in
  do price <~ or_default [ValueError; TypeError] 0%float
                (do v <~ index product_data 3 ;; float_of_value float_of_str v) ;;
  do image_path <~
    (if longer_than product_data 4 then
       do v <~ index product_data 4 ;;
       Ok (if truthy v then v else SqlText "")
     else Ok (SqlText "")) ;;
  do stock <~ or_default [ValueError; TypeError] 0
                (if longer_than product_data 5 then
                   do v <~ index product_data 5 ;;
                   if truthy v then int_of_value v else Ok 0
                 else Ok 0) ;;
  do is_available <~ or_default [ValueError; TypeError] false
                (if longer_than product_data 6 then
                   do v <~ index product_data 6 ;;
                   match v with
                   | SqlNull => Ok false
                   | _ => do n <~ int_of_value v ;; Ok (negb (n =? 0))
                   end
                 else Ok false) ;;
  Ok {| product_id := product_id; name := name; description := description;
        price := price; image_path := image_path; stock := stock;
        is_available := is_available;
        add_enabled := negb (negb is_available || (stock <=? 0)) |}.

(** The filter of [load_products_from_db]: [len(product_data) > 6 and
    product_data[6]]. *)
Definition shown (product_data : list sqlval) : bool :=
  longer_than product_data 6 &&
  match index product_data 6 with
  | Ok v => truthy v
  | Raise _ => false
  end.

(** [load_products_from_db], given what [get_all_products] returned: the
    cards that are built, in order. *)
Fixpoint load_products (float_of_str : string -> result float)
    (all_products : list (list sqlval)) : result (list widget) :=
  match all_products with
  | [] => Ok []
  | product_data :: rest =>
      if shown product_data then
        do w <~ init float_of_str product_data ;;
        do ws <~ load_products float_of_str rest ;;
        Ok (w :: ws)
      else load_products float_of_str rest
  end.

(** The number passed to [update_results_count] after loading. *)
Definition results_count (all_products : list (list sqlval)) : nat :=
  List.length (List.filter shown all_products).

(** The card of a row of the table. *)
Definition card_of (product_id : Z) (p : product) : widget :=
  {| product_id := SqlInt product_id;
     name := SqlText (Database.name p);
     description := SqlText (Database.description p);
     price := price_per_hour p;
     image_path := SqlText (Database.image_path p);
     stock := stock_quantity p;
     is_available := negb (Database.is_available p =? 0);
     add_enabled := negb (Database.is_available p =? 0)
                    && (0 <? stock_quantity p) |}.

End ProductWidget.

(* ================================================================== *)
(** ** [CartWidget.get_customer_info] and [ContactDialog.save_contact] *)
(* ================================================================== *)

Module CustomerForm.
Import Py.

(** What the user does in the customer form: "Continue" with the four
    fields as typed, or "Cancel". *)
Inductive event : Type :=
| Proceed (name address phone email : string)
| Cancel.



End CustomerForm.

(* ================================================================== *)
(** ** [Database]: the other methods, and the admin panel's use of them *)
(* ================================================================== *)

Module Tables.
Import Py.

(** A row of table [contact_info]. *)
Record contact : Type := {
  phone : string;
  email : string;
  address : string
}.

(** The database file: table [products], the AUTOINCREMENT counter that
    SQLite keeps for it, and table [contact_info], newest row first. *)
Record tables : Type := {
  products : gmap Z Database.product;
  sequence : Z;
  contact_info : list contact
}.

Definition default_contact : contact :=
  {| phone := "+91 12345 67890";
     email := "support@premiumstore.com";
     address := "123 Business Street, City, State 123456" |}.

(** [init_db] on an existing file: the tables are there; the default
    contact row is inserted when table [contact_info] is empty. *)
Definition init_db (t : tables) : tables :=
  match contact_info t with
  | [] => {| products := products t; sequence := sequence t;
             contact_info := [default_contact] |}
  | _ => t
  end.

(** [get_contact_info]: the row with the greatest id, or the built-in
    values. *)
Definition get_contact_info (t : tables) : contact :=
  match contact_info t with
  | result :: _ => result
  | [] => {| phone := "+91 12345 67890";
             email := "support@premiumstore.com";
             address := "123 Business Street, City, State 123456" |}
  end.

(** [update_contact_info] inserts a row; it returns [True]. *)
Definition update_contact_info (phone email address : string) (t : tables)
  : tables :=
  {| products := products t; sequence := sequence t;
     contact_info :=
       {| phone := phone; email := email; address := address |}
       :: contact_info t |}.

(** The greatest id in table [products], 0 when it is empty. *)
Definition max_id (m : gmap Z Database.product) : Z :=
  map_fold (fun k _ acc => Z.max k acc) 0 m.

(** The id an AUTOINCREMENT key gives to the next row: one more than the
    greatest id the table holds or has ever held. *)
Definition next_id (t : tables) : Z :=
  Z.max (sequence t) (max_id (products t)) + 1.

(** [add_product]; [now] is CURRENT_TIMESTAMP.  It returns [lastrowid]. *)
Definition add_product (now : string) (name : string) (price : float)
    (description image_path : string) (stock : Z) (t : tables) : tables * Z :=
  let product_id := next_id t in
  ({| products :=
        <[ product_id :=
             {| Database.name := name;
                Database.description := description;
                Database.price_per_hour := price;
                Database.image_path := image_path;
                Database.stock_quantity := stock;
                Database.is_available := 1;
                Database.created_at := now |} ]> (products t);
      sequence := product_id;
      contact_info := contact_info t |},
   product_id).

Definition get_product (t : tables) (product_id : Z)
  : option (list Database.sqlval) :=
  Database.get_product (products t) product_id.

(** [delete_product]: the row is deleted; the result is [rowcount > 0]. *)
Definition delete_product (product_id : Z) (t : tables) : tables * bool :=
  ({| products := delete product_id (products t);
      sequence := sequence t;
      contact_info := contact_info t |},
   match products t !! product_id with Some _ => true | None => false end).

Definition get_product_count (t : tables) : Z :=
  Z.of_nat (size (products t)).

(** The keyword arguments of [update_product]; [None] is an argument
    left out. *)
Record changes : Type := {
  new_name : option string;
  new_price : option float;
  new_description : option string;
  new_image_path : option string;
  new_stock : option Z;
  new_available : option Z
}.

Definition no_changes : changes :=
  {| new_name := None; new_price := None; new_description := None;
     new_image_path := None; new_stock := None; new_available := None |}.

Definition is_given {A} (o : option A) : bool :=
  match o with Some _ => true | None => false end.

(** Whether the list [updates] is non-empty. *)
Definition any_given (c : changes) : bool :=
  is_given (new_name c) || is_given (new_price c) ||
  is_given (new_description c) || is_given (new_image_path c) ||
  is_given (new_stock c) || is_given (new_available c).

Definition apply_changes (c : changes) (p : Database.product)
  : Database.product :=
  {| Database.name := default (Database.name p) (new_name c);
     Database.description :=
       default (Database.description p) (new_description c);
     Database.price_per_hour :=
       default (Database.price_per_hour p) (new_price c);
     Database.image_path := default (Database.image_path p) (new_image_path c);
     Database.stock_quantity :=
       default (Database.stock_quantity p) (new_stock c);
     Database.is_available :=
       default (Database.is_available p) (new_available c);
     Database.created_at := Database.created_at p |}.

(** [update_product] with all its keyword arguments: one UPDATE of the
    row with that id when an argument is given, and the value returned. *)
Definition update_product (product_id : Z) (c : changes) (t : tables)
  : tables * bool :=
  if any_given c then
    ({| products := alter (apply_changes c) product_id (products t);
        sequence := sequence t;
        contact_info := contact_info t |}, true)
  else (t, false).

(** What the admin panel does to the file. *)
Inductive op : Type :=
| AddProduct (now name : string) (price : float)
             (description image_path : string) (stock : Z)
| DeleteProduct (product_id : Z)
| UpdateProduct (product_id : Z) (c : changes)
| UpdateContactInfo (phone email address : string)
| InitDb.

Definition step (o : op) (t : tables) : tables :=
  match o with
  | AddProduct now name price description image_path stock =>
      fst (add_product now name price description image_path stock t)
  | DeleteProduct product_id => fst (delete_product product_id t)
  | UpdateProduct product_id c => fst (update_product product_id c t)
  | UpdateContactInfo phone email address =>
      update_contact_info phone email address t
  | InitDb => init_db t
  end.

Definition run (ops : list op) (t : tables) : tables :=
  fold_left (fun acc o => step o acc) ops t.

End Tables.

Module AdminPanel.
Import Py.


(** [AdminPanel.toggle_availability]; the flag is stored as 0 or 1. *)
Definition toggle_availability (product_id : Z) (new_status : bool)
    (t : Tables.tables) : Tables.tables :=
  match Tables.get_product t product_id with
  | Some _ =>
      fst (Tables.update_product product_id
             {| Tables.new_name := None; Tables.new_price := None;
                Tables.new_description := None;
                Tables.new_image_path := None; Tables.new_stock := None;
                Tables.new_available := Some (if new_status then 1 else 0) |}
             t)
  | None => t
  end.

End AdminPanel.

(** The fields of an invoice agree with each other. *)
Definition coherent (inv : PDFGenerator.invoice) : Prop :=
  PDFGenerator.inv_grand_total inv = PDFGenerator.inv_subtotal inv /\
  ((PDFGenerator.inv_payment_status inv = "Partially Paid"%string /\
    PDFGenerator.inv_advance_rows inv <> None /\
    PDFGenerator.inv_due_date inv <> None) \/
   (PDFGenerator.inv_payment_status inv = "Paid"%string /\
    PDFGenerator.inv_advance_rows inv = None /\
    PDFGenerator.inv_due_date inv = None)).


(** Two products that differ at most in their stock. *)
Definition same_but_stock (p q : Database.product) : Prop :=
  Database.name p = Database.name q /\
  Database.description p = Database.description q /\
  Database.price_per_hour p = Database.price_per_hour q /\
  Database.image_path p = Database.image_path q /\
  Database.is_available p = Database.is_available q /\
  Database.created_at p = Database.created_at q.

(** The table after the deduction, row by row. *)
Definition stock_only (db0 db1 : gmap Z Database.product)
    (items : list item) : Prop :=
  forall product_id,
    match db1 !! product_id, db0 !! product_id with
    | Some q, Some p => same_but_stock p q
    | None, None => True
    | _, _ => False
    end /\
    ((forall it, In it items -> Item.id it <> product_id) ->
     db1 !! product_id = db0 !! product_id).

(** Every line has a quantity of at least one. *)
Definition positive_quantities (items : list item) : Prop :=
  Forall (fun it => 1 <= Item.quantity it) items.

(** The cart after pressing "Add to Cart" [n] times on one product. *)
Definition press_add (n : nat) (product_id : Z) (product_name : string)
    (unit_price : float) (stock_available : Z) : list item :=
  Nat.iter n
    (fun cart => fst (CartWidget.add_to_cart false product_id product_name
                        unit_price stock_available cart)) [].

(** An event that closes the advance dialog with a plan. *)
Definition accepting (ev : AdvancePaymentDialog.event) : bool :=
  match ev with
  | AdvancePaymentDialog.ProceedClicked _
  | AdvancePaymentDialog.FullClicked => true
  | _ => false
  end.

(** The check behind the spelling of the numbers from 20 to 99. *)
Definition tens_then_unit (k : Z) : bool :=
  match PDFGenerator.convert_two_digits k,
        Py.index PDFGenerator.tens (k / 10),
        Py.index PDFGenerator.units (k mod 10) with
  | Py.Ok w, Py.Ok t, Py.Ok u =>
      String.eqb w (if 0 <? k mod 10 then t +:+ " " +:+ u else t)
      && negb (String.eqb t "")
  | _, _, _ => false
  end.

(* ================================================================== *)
(** ** Properties *)
(* ================================================================== *)

Ltac break_match :=
  match goal with
  | |- context [match ?x with _ => _ end] => destruct x eqn:?
  end.

Section StockColumn.
Import CartWidget.

(** Position 6 of a fetched row is the availability flag. *)
Lemma row_index_6 product_id p :
  (do v <~ Py.index (Database.row product_id p) 6 ;; Database.int_of_value v)
  = Py.Ok (Database.is_available p).
Proof. reflexivity. Qed.

Lemma row_index_6_raw product_id p :
  Py.index (Database.row product_id p) 6
  = Py.Ok (Database.SqlInt (Database.is_available p)).
Proof. reflexivity. Qed.

(** The check of a one-line cart compares the quantity with that flag. *)
Lemma check_stock_one_line db0 it p :
  db0 !! id it = Some p ->
  check_stock db0 [it] =
    if Database.is_available p <? quantity it
    then Py.Ok (Some (StockIssue (Database.SqlInt (Database.is_available p))
                        (name it) (quantity it)))
    else Py.Ok None.
Proof.
  intros H. unfold check_stock, Database.get_product. rewrite H. reflexivity.
Qed.

(** The deduction for a one-line cart stores that flag minus the quantity. *)
Lemma deduct_stock_one_line db0 it p :
  db0 !! id it = Some p ->
  deduct_stock db0 [it] =
    (alter (Database.set_stock (Database.is_available p - quantity it))
           (id it) db0, None).
Proof.
  intros H. unfold deduct_stock, Database.get_product. rewrite H. reflexivity.
Qed.

End StockColumn.

Section Checkout.
Import CartWidget.

(** C1.  The stock check at the start of a checkout is meant to compare
    the quantity in the cart with the product's stock read afresh from
    the database.  With three chairs in stock and two in the cart it
    stops both checkouts and reports one available unit: the value it
    compares with is column 6 of the row, the availability flag, while
    the stock is column 5. *)
Theorem stock_check_compares_with_availability_flag :
  Shop.stock_of (Shop.chairs 2) 1 = Some 3 /\
  map quantity (cart_items (Shop.chairs 2)) = [2] /\
  (forall a,
      checkout a (Shop.chairs 2)
      = (Shop.chairs 2, [StockIssue (Database.SqlInt 1) "Chair" 2])) /\
  (forall today events a,
      process_advance_payment today events a (Shop.chairs 2)
      = (Shop.chairs 2, [StockIssue (Database.SqlInt 1) "Chair" 2])).
Proof.
  repeat split; intros; vm_compute; reflexivity.
Qed.

(** C2.  A successful checkout is meant to lower the stock of the product
    by the quantity bought and to empty the cart.  With three chairs in
    stock and one in the cart, the full checkout empties the cart and
    writes one invoice, but leaves a stock of 0 instead of 2: the new
    stock is the availability flag minus the quantity.  The advance
    checkout does the same. *)
Theorem checkout_stores_flag_minus_quantity :
  let s := Shop.chairs 1 in
  let s1 := fst (checkout Shop.smooth s) in
  let s2 := fst (process_advance_payment 100
                   [AdvancePaymentDialog.ValueChanged 200;
                    AdvancePaymentDialog.ProceedClicked 107] Shop.smooth s) in
  Shop.stock_of s 1 = Some 3 /\
  map quantity (cart_items s) = [1] /\
  cart_items s1 = [] /\ List.length (files s1) = 1%nat /\
  Shop.stock_of s1 1 = Some 0 /\
  cart_items s2 = [] /\ List.length (files s2) = 1%nat /\
  Shop.stock_of s2 1 = Some 0.
Proof.
  vm_compute. repeat split; reflexivity.
Qed.

(** C4.  Once the invoice is written the checkout is meant to finish:
    stock deducted and cart cleared, whatever happens when the PDF is
    opened.  When the customer asks to open the PDF and starting the
    viewer raises, the invoice is written and the stock is rewritten, but
    the handler of the enclosing [try] takes over ("Failed to generate
    PDF") and the cart keeps its line, in both checkouts. *)
Theorem failed_open_leaves_cart_uncleared :
  let s := Shop.chairs 1 in
  let r1 := checkout Shop.no_viewer s in
  let r2 := process_advance_payment 100 [AdvancePaymentDialog.FullClicked]
              Shop.no_viewer s in
  List.length (files (fst r1)) = 1%nat /\
  Shop.stock_of (fst r1) 1 <> Shop.stock_of s 1 /\
  cart_items (fst r1) = cart_items s /\ cart_items s <> [] /\
  snd r1 = [PaymentSuccessful "invoice.pdf" 500 1 "Alice";
            FailedToGeneratePDF Py.OSError] /\
  List.length (files (fst r2)) = 1%nat /\
  Shop.stock_of (fst r2) 1 <> Shop.stock_of s 1 /\
  cart_items (fst r2) = cart_items s.
Proof.
  vm_compute. repeat split; try reflexivity; discriminate.
Qed.

(** Where the cart of a state can go in one checkout. *)
Lemma checkout_cart a s :
  cart_items (fst (checkout a s)) = cart_items s \/
  cart_items (fst (checkout a s)) = [].
Proof.
  unfold checkout, finish.
  repeat (break_match; simpl; auto).
Qed.

Lemma process_advance_payment_cart today events a s :
  cart_items (fst (process_advance_payment today events a s)) = cart_items s \/
  cart_items (fst (process_advance_payment today events a s)) = [].
Proof.
  unfold process_advance_payment, finish.
  repeat (break_match; simpl; auto).
Qed.

(** C5.  A checkout that is given up -- the stock check fails, the
    payment dialog, the customer form or the save dialog is cancelled, or
    writing the document fails -- changes nothing: the cart, every stock
    quantity and the written invoices are as before. *)
Theorem aborted_checkout_changes_nothing o s :
  aborted o s -> step o s = s.
Proof.
  intros H; destruct H; simpl.
  - unfold checkout. rewrite H. destruct (cart_items s); reflexivity.
  - unfold checkout. rewrite H.
    destruct (cart_items s); [reflexivity|].
    destruct (check_stock _ _) as [[m|]|e]; reflexivity.
  - unfold checkout. rewrite H.
    destruct (cart_items s); [reflexivity|].
    destruct (check_stock _ _) as [[m|]|e]; try reflexivity.
    destruct (customer_info a); reflexivity.
  - unfold checkout. rewrite H, H0.
    destruct (cart_items s); [reflexivity|].
    destruct (check_stock _ _) as [[m|]|e0]; try reflexivity.
    destruct (String.eqb _ _); reflexivity.
  - unfold process_advance_payment. rewrite H.
    destruct (cart_items s); reflexivity.
  - unfold process_advance_payment. rewrite H.
    destruct (cart_items s); [reflexivity|].
    destruct (check_stock_advance _ _) as [[m|]|e]; reflexivity.
  - unfold process_advance_payment. rewrite H.
    destruct (cart_items s); [reflexivity|].
    destruct (check_stock_advance _ _) as [[m|]|e]; try reflexivity.
    destruct (AdvancePaymentDialog.exec _ _); reflexivity.
  - unfold process_advance_payment. rewrite H.
    destruct (cart_items s); [reflexivity|].
    destruct (check_stock_advance _ _) as [[m|]|e]; try reflexivity.
    destruct (AdvancePaymentDialog.exec _ _) as [d|]; [|reflexivity].
    destruct (customer_info a); [|reflexivity].
    destruct (AdvancePaymentDialog.payment_type d); reflexivity.
  - unfold process_advance_payment. rewrite H, H0, H1, H2.
    destruct (cart_items s); [reflexivity|].
    destruct (check_stock_advance _ _) as [[m|]|e0]; try reflexivity.
    destruct (String.eqb (file_path a) ""); reflexivity.
Qed.

Lemma aborted_checkout_changes_nothing_witness :
  aborted (Checkout Shop.disk_full) (Shop.chairs 1) /\
  step (Checkout Shop.disk_full) (Shop.chairs 1) = Shop.chairs 1.
Proof.
  assert (H : aborted (Checkout Shop.disk_full) (Shop.chairs 1)).
  { apply abort_render with (c := Shop.alice) (e := Py.OSError);
      vm_compute; reflexivity. }
  split; [exact H | exact (aborted_checkout_changes_nothing _ _ H)].
Defined.

End Checkout.

Section Cart.
Import CartWidget.


Lemma add_to_cart_single_line reply product_id product_name unit_price
    stock_available items :
  (List.length items <= 1)%nat ->
  (List.length (fst (add_to_cart reply product_id product_name unit_price
                       stock_available items)) <= 1)%nat.
Proof.
  intros H. unfold add_to_cart.
  repeat (break_match; simpl in *; try lia).
Qed.

Lemma pop_length row (items : list item) :
  (List.length (pop row items) <= List.length items)%nat.
Proof.
  revert items; induction row as [|k IH]; intros [|x rest]; simpl; try lia.
  specialize (IH rest). lia.
Qed.

Lemma remove_from_cart_single_line row items :
  (List.length items <= 1)%nat ->
  (List.length (fst (remove_from_cart row items)) <= 1)%nat.
Proof.
  intros H. unfold remove_from_cart.
  repeat (break_match; simpl; try lia).
  pose proof (pop_length (Z.to_nat row) items). lia.
Qed.

Lemma step_single_line o s :
  (List.length (cart_items s) <= 1)%nat ->
  (List.length (cart_items (step o s)) <= 1)%nat.
Proof.
  intros H. destruct o; simpl.
  - now apply add_to_cart_single_line.
  - now apply remove_from_cart_single_line.
  - unfold clear_cart. repeat (break_match; simpl in *; try lia).
  - destruct (checkout_cart a s) as [E|E]; rewrite E; simpl; lia.
  - destruct (process_advance_payment_cart today events a s) as [E|E];
      rewrite E; simpl; lia.
Qed.

Lemma short_list_one_id (items : list item) :
  (List.length items <= 1)%nat ->
  forall x y, In x items -> In y items -> id x = id y.
Proof.
  destruct items as [|a [|b rest]]; simpl; intros H x y Hx Hy.
  - contradiction.
  - destruct Hx as [<-|[]], Hy as [<-|[]]. reflexivity.
  - lia.
Qed.

(** C7.  Whatever buttons are pressed, in whatever order and with whatever
    answers -- adding the same or another product, confirming or
    declining the replacement, removing a row, clearing, either checkout
    -- every state passed through has at most one line in the cart, and
    so at most one product id. *)
Theorem cart_never_holds_two_lines db0 ops :
  Forall single_line (trace ops (initial db0)).
Proof.
  assert (G : forall ops s, (List.length (cart_items s) <= 1)%nat ->
                            Forall single_line (trace ops s)).
  { clear ops. induction ops as [|o rest IH]; intros s H; simpl.
    - constructor; [|constructor].
      split; [exact H | now apply short_list_one_id].
    - constructor.
      + split; [exact H | now apply short_list_one_id].
      + apply IH. now apply step_single_line. }
  apply G. simpl. lia.
Qed.

End Cart.

Section PaymentPlan.
Import AdvancePaymentDialog.









End PaymentPlan.

Section Invoices.
Import CartWidget.




End Invoices.

Section AmountInWords.
Import Py PDFGenerator.

Lemma below_forallb (P : Z -> bool) (n : nat) :
  forallb P (map Z.of_nat (seq 0 n)) = true ->
  forall k, 0 <= k < Z.of_nat n -> P k = true.
Proof.
  intros H k Hk. rewrite forallb_forall in H. apply H.
  apply in_map_iff. exists (Z.to_nat k). split; [lia|].
  apply in_seq. lia.
Qed.

Lemma convert_two_digits_small k :
  0 <= k < 100 ->
  exists w, convert_two_digits k = Ok w /\ in_words w = true.
Proof.
  intros Hk.
  assert (H : spelled k = true).
  { apply (below_forallb spelled 100); [vm_compute; reflexivity | exact Hk]. }
  unfold spelled in H. destruct (convert_two_digits k) as [w|e];
    [exists w; auto | discriminate].
Qed.

Lemma convert_two_digits_large k :
  100 <= k -> convert_two_digits k = Ok (str k).
Proof.
  intros Hk. unfold convert_two_digits.
  destruct (Z.ltb_spec k 10); [lia|].
  destruct (Z.ltb_spec k 20); [lia|].
  assert (10 <= k / 10) by (apply Z.div_le_lower_bound; lia).
  change (Z.of_nat (List.length tens)) with 10.
  destruct (Z.ltb_spec (k / 10) 10); [lia | reflexivity].
Qed.

Lemma convert_two_digits_total k :
  0 <= k ->
  exists w, convert_two_digits k = Ok w /\ (k < 100 -> in_words w = true).
Proof.
  intros Hk. destruct (Z_lt_le_dec k 100) as [Hs|Hl].
  - destruct (convert_two_digits_small k) as (w & E & W); [lia|].
    exists w; auto.
  - exists (str k). split; [now apply convert_two_digits_large | lia].
Qed.

Lemma units_small q :
  0 <= q < 10 -> exists h, index units q = Ok h /\ in_words h = true.
Proof.
  intros Hq. destruct (convert_two_digits_small q) as (h & E & W); [lia|].
  exists h. split; [|exact W].
  unfold convert_two_digits in E.
  destruct (Z.ltb_spec q 10); [exact E | lia].
Qed.

Lemma string_length_append (a b : string) :
  String.length (a +:+ b) = (String.length a + String.length b)%nat.
Proof. induction a as [|c a IH]; simpl; [reflexivity | now f_equal]. Qed.

Lemma string_append_assoc (a b c : string) :
  (a +:+ b) +:+ c = a +:+ (b +:+ c).
Proof.
  induction a as [|x a IH]; [reflexivity|].
  change (String x ((a +:+ b) +:+ c) = String x (a +:+ (b +:+ c))).
  now f_equal.
Qed.

Lemma ends_with_append suffix a : ends_with suffix (a +:+ suffix) = true.
Proof.
  induction a as [|c a IH].
  - change ("" +:+ suffix) with suffix.
    destruct suffix; cbn [ends_with]; now rewrite String.eqb_refl.
  - change (String c a +:+ suffix) with (String c (a +:+ suffix)).
    cbn [ends_with]. rewrite IH. now destruct (String.eqb _ _).
Qed.

Lemma rupees_not_paise a : ends_with " Paise" (a +:+ " Rupees") = false.
Proof.
  induction a as [|c a IH].
  - vm_compute. reflexivity.
  - change (String c a +:+ " Rupees") with (String c (a +:+ " Rupees")).
    cbn [ends_with]. rewrite IH.
    destruct (String.eqb_spec (String c (a +:+ " Rupees")) " Paise") as [E|_];
      [|reflexivity].
    apply (f_equal String.length) in E. simpl in E.
    rewrite string_length_append in E. simpl in E. lia.
Qed.

(** C3, as the code has it.  Zero gives the bare word "Zero"; 100, 100000
    and 1250.50 come out as the claim says.  The whole rupees are cut at
    100, 1000 and 100000, and the quotient and the remainder of each cut
    go through the two-digit helper once, with no further cut: they are
    spelled in words when below 100.  The paise clause is appended
    exactly when the rounded paise are above 0. *)
Theorem number_to_words_grouping :
  number_to_words 0 = Ok "Zero"%string /\
  number_to_words 100 = Ok "One Hundred Rupees"%string /\
  number_to_words 100000 = Ok "One Lakh Rupees"%string /\
  (exists before,
      number_to_words 1250.5 = Ok (before +:+ "Rupees and Fifty Paise")) /\
  (forall k, 0 <= k < 100 ->
      exists w, convert_two_digits k = Ok w /\ in_words w = true) /\
  (forall r, 0 < r < 100 -> rupees_text r = convert_two_digits r) /\
  (forall r, 100 <= r < 1000 ->
      exists h w,
        index units (r / 100) = Ok h /\ in_words h = true /\
        convert_two_digits (r mod 100) = Ok w /\ in_words w = true /\
        rupees_text r = Ok (h +:+ " Hundred " +:+ w)) /\
  (forall r, 1000 <= r < 100000 ->
      exists h w,
        convert_two_digits (r / 1000) = Ok h /\ in_words h = true /\
        convert_two_digits (r mod 1000) = Ok w /\
        (r mod 1000 < 100 -> in_words w = true) /\
        rupees_text r = Ok (h +:+ " Thousand " +:+ w)) /\
  (forall r, 100000 <= r ->
      exists h w,
        convert_two_digits (r / 100000) = Ok h /\
        (r < 10000000 -> in_words h = true) /\
        convert_two_digits (r mod 100000) = Ok w /\
        (r mod 100000 < 100 -> in_words w = true) /\
        rupees_text r = Ok (h +:+ " Lakh " +:+ w)) /\
  (forall n s,
      PrimFloat.eqb n 0 = false -> number_to_words n = Ok s ->
      exists rupees paise text,
        int_of_float n = Ok rupees /\
        round (PrimFloat.mul (PrimFloat.sub n (float_of_int rupees)) 100)
          = Ok paise /\
        rupees_text rupees = Ok text /\
        (if 0 <? paise
         then exists p, convert_two_digits paise = Ok p /\
                        s = (strip text +:+ " Rupees")
                              +:+ " and " +:+ p +:+ " Paise"
         else s = strip text +:+ " Rupees") /\
        (ends_with " Paise" s = true <-> 0 < paise)).
Proof.
  split; [reflexivity|].
  split; [vm_compute; reflexivity|].
  split; [vm_compute; reflexivity|].
  split; [exists "One Thousand 250 "%string; vm_compute; reflexivity|].
  split; [exact convert_two_digits_small|].
  split.
  { intros r Hr. unfold rupees_text.
    destruct (Z.eqb_spec r 0); [lia|].
    destruct (Z.ltb_spec r 100); [reflexivity | lia]. }
  split.
  { intros r Hr.
    destruct (units_small (r / 100)) as (h & Eh & Wh).
    { split; [apply Z.div_pos; lia | apply Z.div_lt_upper_bound; lia]. }
    destruct (convert_two_digits_small (r mod 100)) as (w & Ew & Ww).
    { apply Z.mod_pos_bound; lia. }
    exists h, w. repeat split; auto.
    unfold rupees_text.
    destruct (Z.eqb_spec r 0); [lia|].
    destruct (Z.ltb_spec r 100); [lia|].
    destruct (Z.ltb_spec r 1000); [|lia].
    rewrite Eh, Ew. reflexivity. }
  split.
  { intros r Hr.
    destruct (convert_two_digits_small (r / 1000)) as (h & Eh & Wh).
    { split; [apply Z.div_pos; lia | apply Z.div_lt_upper_bound; lia]. }
    destruct (convert_two_digits_total (r mod 1000)) as (w & Ew & Ww).
    { apply Z.mod_pos_bound; lia. }
    exists h, w. repeat split; auto.
    unfold rupees_text.
    destruct (Z.eqb_spec r 0); [lia|].
    destruct (Z.ltb_spec r 100); [lia|].
    destruct (Z.ltb_spec r 1000); [lia|].
    destruct (Z.ltb_spec r 100000); [|lia].
    rewrite Eh, Ew. reflexivity. }
  split.
  { intros r Hr.
    destruct (convert_two_digits_total (r / 100000)) as (h & Eh & Wh).
    { apply Z.div_pos; lia. }
    destruct (convert_two_digits_total (r mod 100000)) as (w & Ew & Ww).
    { apply Z.mod_pos_bound; lia. }
    exists h, w. repeat split; auto.
    - intros Hlt. apply Wh. apply Z.div_lt_upper_bound; lia.
    - unfold rupees_text.
      destruct (Z.eqb_spec r 0); [lia|].
      destruct (Z.ltb_spec r 100); [lia|].
      destruct (Z.ltb_spec r 1000); [lia|].
      destruct (Z.ltb_spec r 100000); [lia|].
      rewrite Eh, Ew. reflexivity. }
  intros n s Hn Hs. unfold number_to_words in Hs. rewrite Hn in Hs.
  destruct (int_of_float n) as [rupees|] eqn:Er; simpl in Hs; [|discriminate].
  destruct (round _) as [paise|] eqn:Ep; simpl in Hs; [|discriminate].
  destruct (rupees_text rupees) as [text|] eqn:Et; simpl in Hs; [|discriminate].
  exists rupees, paise, text. repeat split; auto.
  - destruct (Z.ltb_spec 0 paise).
    + destruct (convert_two_digits paise) as [p|]; simpl in Hs; [|discriminate].
      injection Hs as <-. exists p; auto.
    + injection Hs as <-. reflexivity.
  - destruct (Z.ltb_spec 0 paise); [auto|].
    injection Hs as <-. rewrite rupees_not_paise. discriminate.
  - intros Hp. destruct (Z.ltb_spec 0 paise); [|lia].
    destruct (convert_two_digits paise) as [p|]; simpl in Hs; [|discriminate].
    injection Hs as <-.
    replace ((strip text +:+ " Rupees") +:+ " and " +:+ p +:+ " Paise")
      with (((strip text +:+ " Rupees") +:+ " and " +:+ p) +:+ " Paise")
      by (now rewrite !string_append_assoc).
    apply ends_with_append.
Qed.

(** C3, the claim as written, fails for 0 and for 1500. *)
Lemma number_to_words_zero_and_1500 :
  number_to_words 0 <> Ok "Zero Rupees"%string /\
  number_to_words 1500 <> Ok "One Thousand Five Hundred Rupees"%string /\
  number_to_words 1500 = Ok "One Thousand 500 Rupees"%string.
Proof.
  repeat split; vm_compute; try reflexivity; intros H; discriminate H.
Qed.

End AmountInWords.

(* ================================================================== *)
(** ** Further properties of the cart *)
(* ================================================================== *)

Section CartQuantities.
Import CartWidget.

Lemma pop_positive row items :
  positive_quantities items -> positive_quantities (pop row items).
Proof.
  unfold positive_quantities.
  revert items; induction row as [|k IH]; intros [|x rest] H; simpl; auto.
  - now inversion H.
  - inversion H; subst. constructor; auto.
Qed.

Lemma add_to_cart_positive reply product_id product_name unit_price
    stock_available items :
  positive_quantities items ->
  positive_quantities (fst (add_to_cart reply product_id product_name
                              unit_price stock_available items)).
Proof.
  unfold positive_quantities, add_to_cart. intros H.
  repeat (break_match; simpl); auto;
    try (repeat constructor; simpl; lia).
  inversion H; subst. constructor; simpl; [lia | assumption].
Qed.

Lemma step_positive o s :
  positive_quantities (cart_items s) ->
  positive_quantities (cart_items (step o s)).
Proof.
  intros H. destruct o; simpl.
  - now apply add_to_cart_positive.
  - unfold remove_from_cart. repeat (break_match; simpl); auto.
    now apply pop_positive.
  - unfold clear_cart. repeat (break_match; simpl); auto; constructor.
  - destruct (checkout_cart a s) as [E|E]; rewrite E; [exact H | constructor].
  - destruct (process_advance_payment_cart today events a s) as [E|E];
      rewrite E; [exact H | constructor].
Qed.

(** X1.  In every state that a sequence of button presses passes through,
    each line of the cart has a quantity of at least one: a line is created
    with quantity 1 and the quantity is only ever raised. *)
Theorem quantity_is_at_least_one db0 ops :
  Forall (fun s => positive_quantities (cart_items s))
         (trace ops (initial db0)).
Proof.
  assert (G : forall ops s, positive_quantities (cart_items s) ->
                Forall (fun s => positive_quantities (cart_items s))
                       (trace ops s)).
  { clear ops. induction ops as [|o rest IH]; intros s H; simpl.
    - constructor; [exact H | constructor].
    - constructor; [exact H|]. apply IH. now apply step_positive. }
  apply G. constructor.
Qed.

Lemma press_add_succ n product_id product_name unit_price stock_available :
  press_add (S n) product_id product_name unit_price stock_available
  = fst (add_to_cart false product_id product_name unit_price stock_available
           (press_add n product_id product_name unit_price stock_available)).
Proof. reflexivity. Qed.

(** X2.  Pressing "Add to Cart" [n] times (n at least 1) on one product,
    from an empty cart and with a positive stock figure, leaves one line
    whose quantity is the smaller of [n] and the stock figure; its total
    is the unit price for quantity 1 and unit price times quantity
    otherwise. *)
Theorem repeated_add_stops_at_stock n product_id product_name unit_price
    stock_available :
  0 < stock_available -> (1 <= n)%nat ->
  let q := Z.min (Z.of_nat n) stock_available in
  press_add n product_id product_name unit_price stock_available
  = [ {| id := product_id; name := product_name;
         price := if q =? 1 then unit_price
                  else PrimFloat.mul unit_price (Py.float_of_int q);
         quantity := q |} ].
Proof.
  intros Hs Hn. cbv zeta. induction n as [|n IH]; [lia|].
  destruct n as [|n].
  - replace (Z.min (Z.of_nat 1) stock_available) with 1 by lia.
    unfold press_add, add_to_cart; simpl.
    destruct (Z.leb_spec stock_available 0); [lia | reflexivity].
  - rewrite press_add_succ, IH by lia. clear IH.
    unfold add_to_cart. cbn [id quantity name]. rewrite Z.eqb_refl.
    destruct (Z_lt_le_dec (Z.of_nat (S n)) stock_available) as [Hlt|Hge].
    + replace (Z.min (Z.of_nat (S n)) stock_available) with (Z.of_nat (S n))
        by lia.
      replace (Z.min (Z.of_nat (S (S n))) stock_available)
        with (Z.of_nat (S n) + 1) by lia.
      destruct (Z.geb_spec (Z.of_nat (S n)) stock_available); [lia|].
      destruct (Z.eqb_spec (Z.of_nat (S n) + 1) 1); [lia|]. reflexivity.
    + replace (Z.min (Z.of_nat (S n)) stock_available) with stock_available
        by lia.
      replace (Z.min (Z.of_nat (S (S n))) stock_available)
        with stock_available by lia.
      destruct (Z.geb_spec stock_available stock_available); [|lia].
      reflexivity.
Qed.

Lemma repeated_add_stops_at_stock_witness :
  0 < 3 /\ (1 <= 5)%nat /\
  press_add 5 1 "Chair" 500 3
  = [ {| id := 1; name := "Chair"; price := 1500; quantity := 3 |} ].
Proof.
  assert (A : 0 < 3) by lia. assert (B : (1 <= 5)%nat) by lia.
  split; [exact A|]. split; [exact B|].
  exact (repeated_add_stops_at_stock 5 1 "Chair" 500 3 A B).
Defined.

(** X3.  A product whose stock figure is zero or negative never enters or
    changes a cart whose lines have quantity at least one: the cart is left
    as it is, whether it was empty, held the same product or held another
    one whose replacement was confirmed. *)
Theorem out_of_stock_add_changes_nothing reply product_id product_name
    unit_price stock_available items :
  positive_quantities items -> stock_available <= 0 ->
  fst (add_to_cart reply product_id product_name unit_price stock_available
         items) = items.
Proof.
  intros H Hs. unfold add_to_cart.
  destruct items as [|cur rest].
  - destruct (Z.leb_spec stock_available 0); [reflexivity | lia].
  - inversion H; subst.
    destruct (id cur =? product_id).
    + destruct (Z.geb_spec (quantity cur) stock_available); [reflexivity | lia].
    + destruct reply; [|reflexivity].
      destruct (Z.leb_spec stock_available 0); [reflexivity | lia].
Qed.

Lemma out_of_stock_add_changes_nothing_witness :
  positive_quantities (cart_items (Shop.chairs 2)) /\ 0 <= 0 /\
  fst (add_to_cart true 7 "Table" 900 0 (cart_items (Shop.chairs 2)))
  = cart_items (Shop.chairs 2).
Proof.
  assert (A : positive_quantities (cart_items (Shop.chairs 2))).
  { vm_compute. repeat constructor. discriminate. }
  assert (B : 0 <= 0) by lia.
  split; [exact A|]. split; [exact B|].
  exact (out_of_stock_add_changes_nothing true 7 "Table" 900 0 _ A B).
Defined.

Lemma pop_length_in_range (items : list item) row :
  (row < List.length items)%nat ->
  S (List.length (pop row items)) = List.length items.
Proof.
  revert items; induction row as [|k IH]; intros [|x rest] H; simpl in *;
    try lia.
  rewrite IH; lia.
Qed.

(** X4.  "Remove" on a row of the cart table removes exactly that row and
    names the removed item in its message; for a row number outside the
    table it does nothing and shows nothing. *)
Theorem remove_from_cart_by_row row items :
  (0 <= row < Z.of_nat (List.length items) ->
   exists removed,
     nth_error items (Z.to_nat row) = Some removed /\
     remove_from_cart row items
     = (pop (Z.to_nat row) items, Some (RemovedFromCart (name removed))) /\
     S (List.length (fst (remove_from_cart row items))) = List.length items)
  /\
  (~ (0 <= row < Z.of_nat (List.length items)) ->
   remove_from_cart row items = (items, None)).
Proof.
  unfold remove_from_cart. split; intros H.
  - destruct (Z.leb_spec 0 row); [|lia].
    destruct (Z.ltb_spec row (Z.of_nat (List.length items))); [|lia].
    simpl.
    destruct (nth_error items (Z.to_nat row)) as [removed|] eqn:E.
    + exists removed. repeat split. simpl.
      apply pop_length_in_range. lia.
    + apply nth_error_None in E. lia.
  - destruct (Z.leb_spec 0 row); simpl; [|reflexivity].
    destruct (Z.ltb_spec row (Z.of_nat (List.length items)));
      [lia | reflexivity].
Qed.

End CartQuantities.

(* ================================================================== *)
(** ** Further properties of the two checkouts *)
(* ================================================================== *)

Section CheckoutFrame.
Import CartWidget.

Lemma check_stock_advance_eq db0 items :
  check_stock_advance db0 items = check_stock db0 items.
Proof.
  induction items as [|it rest IH]; [reflexivity|].
  cbn [check_stock check_stock_advance]. unfold Database.get_product.
  destruct (db0 !! id it) as [p|]; [|exact IH].
  cbn [fmap option_fmap option_map].
  rewrite row_index_6, row_index_6_raw. cbn [Py.bind Database.int_of_value].
  destruct (Database.is_available p <? quantity it); [reflexivity | exact IH].
Qed.

(** X5.  The stock check of "Pay Advance" and the one of "Full Payment"
    are written differently (what is inside the [try], which exceptions are
    caught, what the box quotes) but give the same verdict and the same
    box for every product table and every cart. *)
Theorem both_stock_checks_agree db0 items :
  check_stock_advance db0 items = check_stock db0 items.
Proof. exact (check_stock_advance_eq db0 items). Qed.

Lemma absent_products_skipped db0 items :
  (forall it, In it items -> db0 !! id it = None) ->
  check_stock db0 items = Py.Ok None /\ deduct_stock db0 items = (db0, None).
Proof.
  induction items as [|it rest IH]; intros H; [split; reflexivity|].
  cbn [check_stock deduct_stock]. unfold Database.get_product.
  rewrite (H it (or_introl eq_refl)). cbn [fmap option_fmap option_map].
  apply IH. intros x Hx. apply H. now right.
Qed.

(** X6.  When the products in the cart are no longer in the table (they
    were deleted after being added), the stock check lets the cart pass and
    the deduction writes nothing: a "Full Payment" checkout whose dialogs
    are all answered writes the invoice, leaves the table untouched and
    empties the cart. *)
Theorem deleted_product_is_sold_unchecked a s c inv :
  (forall it, In it (cart_items s) -> db s !! id it = None) ->
  cart_items s <> [] ->
  customer_info a = Some c ->
  file_path a <> ""%string ->
  PDFGenerator.generate_invoice (build a) (cart_items s)
    (total_of (cart_items s)) "full" (total_of (cart_items s)) 0 None c
    "Full Payment" (file_path a) = Py.Ok inv ->
  open_reply a = false ->
  check_stock (db s) (cart_items s) = Py.Ok None /\
  fst (checkout a s)
  = {| db := db s; cart_items := []; files := inv :: files s |}.
Proof.
  intros Habs Hne Hc Hp Hg Ho.
  destruct (absent_products_skipped _ _ Habs) as (Hk & Hd).
  split; [exact Hk|].
  unfold checkout, finish. rewrite Hk, Hc, Hg, Hd, Ho.
  destruct (cart_items s); [congruence|].
  destruct (String.eqb_spec (file_path a) ""); [congruence | reflexivity].
Qed.

Lemma deleted_product_is_sold_unchecked_witness :
  let s := {| db := ∅; cart_items := cart_items (Shop.chairs 1); files := [] |} in
  exists inv,
    fst (checkout Shop.smooth s)
    = {| db := ∅; cart_items := []; files := [inv] |}.
Proof.
  intros s.
  assert (G : exists inv,
    PDFGenerator.generate_invoice (build Shop.smooth) (cart_items s)
      (total_of (cart_items s)) "full" (total_of (cart_items s)) 0 None
      Shop.alice "Full Payment" (file_path Shop.smooth) = Py.Ok inv).
  { eexists. vm_compute. reflexivity. }
  destruct G as (inv & G). exists inv.
  refine (proj2 (deleted_product_is_sold_unchecked Shop.smooth s Shop.alice
                   inv _ _ _ _ G _)).
  - intros it _. apply lookup_empty.
  - vm_compute. discriminate.
  - reflexivity.
  - vm_compute. discriminate.
  - reflexivity.
Defined.

Lemma same_but_stock_refl p : same_but_stock p p.
Proof. repeat split. Qed.

Lemma same_but_stock_set v p : same_but_stock p (Database.set_stock v p).
Proof. repeat split. Qed.

Lemma same_but_stock_trans p q r :
  same_but_stock p q -> same_but_stock q r -> same_but_stock p r.
Proof.
  unfold same_but_stock. intros (A1 & A2 & A3 & A4 & A5 & A6)
    (B1 & B2 & B3 & B4 & B5 & B6).
  repeat split; congruence.
Qed.

Lemma stock_only_refl db0 items : stock_only db0 db0 items.
Proof.
  intros k. split; [|reflexivity].
  destruct (db0 !! k); auto using same_but_stock_refl.
Qed.

Lemma deduct_stock_stock_only items :
  forall db0, stock_only db0 (fst (deduct_stock db0 items)) items.
Proof.
  induction items as [|it rest IH]; intros db0; cbn [deduct_stock].
  - apply stock_only_refl.
  - unfold Database.get_product.
    destruct (db0 !! id it) as [p|] eqn:Hp; cbn [fmap option_fmap option_map].
    + rewrite row_index_6.
      unfold Database.update_product.
      set (db1 := alter _ (id it) db0).
      specialize (IH db1). intros k. destruct (IH k) as (A & B). split.
      * destruct (decide (k = id it)) as [->|Hk].
        -- assert (E : db1 !! id it
                       = Some (Database.set_stock
                                 (Database.is_available p - quantity it) p)).
           { unfold db1. rewrite lookup_alter_eq, Hp. reflexivity. }
           rewrite E in A. rewrite Hp.
           destruct (fst (deduct_stock db1 rest) !! id it); [|exact A].
           eapply same_but_stock_trans; [apply same_but_stock_set | exact A].
        -- assert (E : db1 !! k = db0 !! k).
           { unfold db1. now rewrite lookup_alter_ne. }
           now rewrite E in A.
      * intros Hout. rewrite B.
        -- unfold db1. rewrite lookup_alter_ne; [reflexivity|].
           apply Hout. now left.
        -- intros x Hx. apply Hout. now right.
    + specialize (IH db0). intros k. destruct (IH k) as (A & B).
      split; [exact A|]. intros Hout. apply B.
      intros x Hx. apply Hout. now right.
Qed.

Lemma checkout_db a s :
  db (fst (checkout a s)) = db s \/
  db (fst (checkout a s)) = fst (deduct_stock (db s) (cart_items s)).
Proof.
  unfold checkout, finish.
  repeat (break_match; simpl; auto);
    match goal with
    | H : deduct_stock _ _ = _ |- _ => rewrite H; simpl; auto
    end.
Qed.

Lemma process_advance_payment_db today events a s :
  db (fst (process_advance_payment today events a s)) = db s \/
  db (fst (process_advance_payment today events a s))
  = fst (deduct_stock (db s) (cart_items s)).
Proof.
  unfold process_advance_payment, finish.
  repeat (break_match; simpl; auto);
    match goal with
    | H : deduct_stock _ _ = _ |- _ => rewrite H; simpl; auto
    end.
Qed.

(** X7.  No button of the customer store adds or deletes a product, and
    none changes anything of a product but its stock: name, description,
    price, image, availability flag and creation time stay as they were.
    A product that is not in the cart keeps its stock too. *)
Theorem cart_buttons_touch_only_stock o s product_id :
  match db (step o s) !! product_id, db s !! product_id with
  | Some q, Some p => same_but_stock p q
  | None, None => True
  | _, _ => False
  end /\
  ((forall it, In it (cart_items s) -> id it <> product_id) ->
   db (step o s) !! product_id = db s !! product_id).
Proof.
  assert (R : db (step o s) = db s \/
              db (step o s) = fst (deduct_stock (db s) (cart_items s))).
  { destruct o; simpl; auto using checkout_db, process_advance_payment_db. }
  destruct R as [-> | ->].
  - apply stock_only_refl.
  - apply deduct_stock_stock_only.
Qed.

End CheckoutFrame.

Section Invoices2.
Import CartWidget.

Lemma generate_invoice_coherent build0 items total payment_type adv bal due c
    method path inv :
  PDFGenerator.generate_invoice build0 items total payment_type adv bal due c
    method path = Py.Ok inv ->
  coherent inv /\ PDFGenerator.inv_lines inv = PDFGenerator.table_lines 1 items.
Proof.
  unfold PDFGenerator.generate_invoice. intros H.
  destruct (PDFGenerator.number_to_words _); simpl in H; [|discriminate].
  destruct build0; simpl in H; [|discriminate].
  injection H as <-. unfold coherent; simpl.
  split; [|reflexivity]. split; [reflexivity|].
  destruct (String.eqb payment_type "advance" && PrimFloat.ltb 0 bal).
  - left. repeat split; discriminate.
  - right. repeat split.
Qed.

Lemma table_lines_length items : forall idx,
  List.length (PDFGenerator.table_lines idx items) = List.length items.
Proof.
  induction items as [|it rest IH]; intros idx; simpl; [reflexivity|].
  now rewrite IH.
Qed.

(** What one press can add to the written invoices. *)
Lemma step_files o s :
  files (step o s) = files s \/
  exists inv, files (step o s) = inv :: files s /\ coherent inv /\
              PDFGenerator.inv_lines inv
              = PDFGenerator.table_lines 1 (cart_items s) /\
              cart_items s <> [].
Proof.
  destruct o; simpl; auto.
  - unfold checkout.
    destruct (cart_items s) as [|it rest] eqn:Hc; [now left|].
    destruct (check_stock (db s) (it :: rest)) as [[m|]|e]; try now left.
    destruct (customer_info a) as [c|]; [|now left].
    destruct (String.eqb (file_path a) ""); [now left|].
    destruct (PDFGenerator.generate_invoice _ _ _ _ _ _ _ _ _ _)
      as [inv|e] eqn:G; [|now left].
    destruct (generate_invoice_coherent _ _ _ _ _ _ _ _ _ _ _ G) as (A & B).
    right. exists inv.
    split; [|split; [exact A | split; [exact B | discriminate]]].
    destruct (deduct_stock (db s) (it :: rest)) as [db' [e|]];
      [reflexivity|].
    unfold finish.
    destruct (if open_reply a then open_pdf a else Py.Ok tt); reflexivity.
  - unfold process_advance_payment.
    destruct (cart_items s) as [|it rest] eqn:Hc; [now left|].
    destruct (check_stock_advance (db s) (it :: rest)) as [[m|]|e];
      try now left.
    destruct (AdvancePaymentDialog.exec _ _) as [d|]; [|now left].
    destruct (customer_info a) as [c|]; [|now left].
    destruct (AdvancePaymentDialog.payment_type d) as [pt|]; [|now left].
    destruct (String.eqb (file_path a) ""); [now left|].
    destruct (PDFGenerator.generate_invoice _ _ _ _ _ _ _ _ _ _)
      as [inv|e] eqn:G; [|now left].
    destruct (generate_invoice_coherent _ _ _ _ _ _ _ _ _ _ _ G) as (A & B).
    right. exists inv.
    split; [|split; [exact A | split; [exact B | discriminate]]].
    destruct (deduct_stock (db s) (it :: rest)) as [db' [e|]];
      [reflexivity|].
    unfold finish.
    destruct (if open_reply a then open_pdf a else Py.Ok tt); reflexivity.
Qed.

(** X8.  Every invoice written in the course of any sequence of button
    presses agrees with itself: its grand total is its subtotal; it is
    either "Partially Paid" with the advance and balance rows and the due
    date line, or "Paid" with none of them; and its table has exactly one
    item line, numbered 1. *)
Theorem written_invoices_are_coherent db0 ops :
  Forall (fun s =>
            Forall (fun inv =>
                      coherent inv /\
                      map PDFGenerator.line_index (PDFGenerator.inv_lines inv)
                      = [1])
                   (files s))
         (trace ops (initial db0)).
Proof.
  set (good := fun s : state =>
         (List.length (cart_items s) <= 1)%nat /\
         Forall (fun inv =>
                   coherent inv /\
                   map PDFGenerator.line_index (PDFGenerator.inv_lines inv)
                   = [1]) (files s)).
  assert (G : forall ops s, good s -> Forall good (trace ops s)).
  { clear ops. induction ops as [|o rest IH]; intros s H; simpl.
    - constructor; [exact H | constructor].
    - constructor; [exact H|]. apply IH. destruct H as (L & F).
      split; [now apply step_single_line|].
      destruct (step_files o s) as [E | (inv & E & C & T & N)]; rewrite E;
        [exact F|].
      constructor; [|exact F]. split; [exact C|]. rewrite T.
      destruct (cart_items s) as [|it [|it2 rest2]];
        [congruence | reflexivity | simpl in L; lia]. }
  assert (G0 : Forall good (trace ops (initial db0))).
  { apply G. split; simpl; [lia | constructor]. }
  eapply Forall_impl; [exact G0|]. intros s (_ & F). exact F.
Qed.





(** X11.  For a cart of one line whose product is in the table, both
    checkouts stop at the stock check whenever the quantity exceeds the
    product's availability flag (0 or 1 in a table written by this
    program), whatever its stock: the box reports the flag as the number of
    units available, and nothing changes. *)
Theorem quantity_above_flag_is_refused today events a s it p :
  cart_items s = [it] ->
  db s !! id it = Some p ->
  Database.is_available p < quantity it ->
  checkout a s
  = (s, [StockIssue (Database.SqlInt (Database.is_available p)) (name it)
                    (quantity it)]) /\
  process_advance_payment today events a s
  = (s, [StockIssue (Database.SqlInt (Database.is_available p)) (name it)
                    (quantity it)]).
Proof.
  intros Hc Hp Hq.
  assert (E : check_stock (db s) [it]
              = Py.Ok (Some (StockIssue
                               (Database.SqlInt (Database.is_available p))
                               (name it) (quantity it)))).
  { rewrite (check_stock_one_line _ _ _ Hp).
    destruct (Z.ltb_spec (Database.is_available p) (quantity it));
      [reflexivity | lia]. }
  unfold checkout, process_advance_payment.
  rewrite check_stock_advance_eq, Hc, E. split; reflexivity.
Qed.

Lemma quantity_above_flag_is_refused_witness :
  checkout Shop.smooth (Shop.chairs 3)
  = (Shop.chairs 3, [StockIssue (Database.SqlInt 1) "Chair" 3]).
Proof.
  refine (proj1 (quantity_above_flag_is_refused 0 [] Shop.smooth
                   (Shop.chairs 3)
                   {| id := 1; name := "Chair"; price := 1500; quantity := 3 |}
                   Shop.chair _ _ _)).
  - vm_compute. reflexivity.
  - vm_compute. reflexivity.
  - vm_compute. reflexivity.
Defined.

(** X12.  For a cart of one line whose product is in the table and whose
    quantity does not exceed the availability flag, a "Full Payment"
    checkout with every dialog answered and the PDF not opened writes the
    invoice, empties the cart and stores as the product's stock the
    availability flag minus the quantity; the stock it had plays no part. *)
Theorem committed_checkout_stores_flag_minus_quantity a s it p c inv :
  cart_items s = [it] ->
  db s !! id it = Some p ->
  quantity it <= Database.is_available p ->
  customer_info a = Some c ->
  file_path a <> ""%string ->
  PDFGenerator.generate_invoice (build a) [it] (total_of [it]) "full"
    (total_of [it]) 0 None c "Full Payment" (file_path a) = Py.Ok inv ->
  open_reply a = false ->
  fst (checkout a s)
  = {| db := alter (Database.set_stock
                      (Database.is_available p - quantity it)) (id it) (db s);
       cart_items := [];
       files := inv :: files s |}.
Proof.
  intros Hc Hp Hq Hi Hf Hg Ho.
  unfold checkout, finish.
  rewrite Hc, (check_stock_one_line _ _ _ Hp), Hi, Hg,
    (deduct_stock_one_line _ _ _ Hp), Ho.
  destruct (Z.ltb_spec (Database.is_available p) (quantity it)); [lia|].
  destruct (String.eqb_spec (file_path a) ""); [congruence | reflexivity].
Qed.

Lemma committed_checkout_stores_flag_minus_quantity_witness :
  Shop.stock_of (fst (checkout Shop.smooth (Shop.chairs 1))) 1 = Some 0.
Proof.
  assert (G : exists inv,
    PDFGenerator.generate_invoice (build Shop.smooth)
      [{| id := 1; name := "Chair"; price := 500; quantity := 1 |}]
      (total_of [{| id := 1; name := "Chair"; price := 500; quantity := 1 |}])
      "full"
      (total_of [{| id := 1; name := "Chair"; price := 500; quantity := 1 |}])
      0 None Shop.alice "Full Payment" (file_path Shop.smooth) = Py.Ok inv).
  { eexists. vm_compute. reflexivity. }
  destruct G as (inv & G).
  rewrite (committed_checkout_stores_flag_minus_quantity Shop.smooth
             (Shop.chairs 1)
             {| id := 1; name := "Chair"; price := 500; quantity := 1 |}
             Shop.chair Shop.alice inv).
  - vm_compute. reflexivity.
  - vm_compute. reflexivity.
  - vm_compute. reflexivity.
  - vm_compute. discriminate.
  - reflexivity.
  - vm_compute. discriminate.
  - exact G.
  - reflexivity.
Defined.

End Invoices2.

(* ================================================================== *)
(** ** Further properties of the advance dialog and of the amount in words *)
(* ================================================================== *)

Section DialogClosing.
Import AdvancePaymentDialog.

(** X13.  The advance dialog yields a plan only through one of its two
    accepting buttons: a session in which neither "Process Advance
    Payment" nor "Pay Full Amount" is pressed ends rejected, whatever was
    selected or typed, and the checkout behind it is given up. *)
Theorem no_plan_without_accepting_button d events :
  existsb accepting events = false -> exec d events = None.
Proof.
  revert d. induction events as [|ev rest IH]; intros d H; [reflexivity|].
  simpl in H. apply orb_false_iff in H as (Hev & Hrest).
  destruct ev; simpl in Hev; try discriminate; simpl.
  - destruct (nth_error payment_methods i); now apply IH.
  - now apply IH.
  - reflexivity.
Qed.

Lemma no_plan_without_accepting_button_witness :
  exec (init 1500 100) [SelectMethod 3; ValueChanged 600; CancelClicked] = None.
Proof.
  apply no_plan_without_accepting_button. reflexivity.
Defined.

End DialogClosing.

Section Words.
Import Py PDFGenerator.

Lemma rupees_text_total r :
  0 <= r -> exists text, rupees_text r = Ok text.
Proof.
  intros Hr. unfold rupees_text.
  destruct (Z.eqb_spec r 0); [now eexists|].
  destruct (Z.ltb_spec r 100).
  { destruct (convert_two_digits_total r) as (w & E & _); [lia|]. eauto. }
  destruct (Z.ltb_spec r 1000).
  { destruct (units_small (r / 100)) as (h & Eh & _).
    { split; [apply Z.div_pos; lia | apply Z.div_lt_upper_bound; lia]. }
    destruct (convert_two_digits_total (r mod 100)) as (w & Ew & _).
    { apply Z.mod_pos_bound; lia. }
    rewrite Eh, Ew. now eexists. }
  destruct (Z.ltb_spec r 100000).
  { destruct (convert_two_digits_total (r / 1000)) as (h & Eh & _).
    { apply Z.div_pos; lia. }
    destruct (convert_two_digits_total (r mod 1000)) as (w & Ew & _).
    { apply Z.mod_pos_bound; lia. }
    rewrite Eh, Ew. now eexists. }
  destruct (convert_two_digits_total (r / 100000)) as (h & Eh & _).
  { apply Z.div_pos; lia. }
  destruct (convert_two_digits_total (r mod 100000)) as (w & Ew & _).
  { apply Z.mod_pos_bound; lia. }
  rewrite Eh, Ew. now eexists.
Qed.

Lemma convert_two_digits_below_minus_ten k :
  k < -10 -> convert_two_digits k = Raise IndexError.
Proof.
  intros Hk. unfold convert_two_digits, index.
  destruct (Z.ltb_spec k 10); [|lia].
  change (Z.of_nat (List.length units)) with 10.
  destruct (Z.ltb_spec k 0); [|lia].
  destruct (Z.leb_spec 0 (k + 10)); [lia | reflexivity].
Qed.

(** X14.  The amount in words never fails on an amount whose whole rupees
    are zero or more; on an amount whose whole rupees are below -10 it
    raises IndexError (the units table is indexed out of range). *)
Theorem number_to_words_fails_only_below_zero n rupees paise :
  PrimFloat.eqb n 0 = false ->
  int_of_float n = Ok rupees ->
  round (PrimFloat.mul (PrimFloat.sub n (float_of_int rupees)) 100)
  = Ok paise ->
  (0 <= rupees -> exists s, number_to_words n = Ok s) /\
  (rupees < -10 -> number_to_words n = Raise IndexError).
Proof.
  intros Hn Hr Hp. unfold number_to_words. rewrite Hn, Hr. cbn [bind].
  rewrite Hp. cbn [bind]. split; intros H.
  - destruct (rupees_text_total rupees H) as (text & Et). rewrite Et.
    cbn [bind]. destruct (Z.ltb_spec 0 paise); [|now eexists].
    destruct (convert_two_digits_total paise) as (p & Ep & _); [lia|].
    rewrite Ep. now eexists.
  - unfold rupees_text.
    destruct (Z.eqb_spec rupees 0); [lia|].
    destruct (Z.ltb_spec rupees 100); [|lia].
    now rewrite convert_two_digits_below_minus_ten.
Qed.

Lemma number_to_words_fails_only_below_zero_witness :
  (exists s, number_to_words 1250.5 = Ok s) /\
  number_to_words (-25) = Raise IndexError.
Proof.
  split.
  - refine (proj1 (number_to_words_fails_only_below_zero 1250.5 1250 50
                     _ _ _) _); first [lia | vm_compute; reflexivity].
  - refine (proj2 (number_to_words_fails_only_below_zero (-25) (-25) 0
                     _ _ _) _); first [lia | vm_compute; reflexivity].
Defined.

(** X15.  A negative number from -10 to -1 is looked up in the units table
    from its end, as Python's negative indices do: the two-digit helper
    spells it as the number ten greater (-1 as "Nine", -9 as "One", -10 as
    the empty text). *)
Theorem negative_number_wraps_in_units k :
  -10 <= k < 0 -> convert_two_digits k = convert_two_digits (k + 10).
Proof.
  intros Hk. unfold convert_two_digits, index.
  destruct (Z.ltb_spec k 10); [|lia].
  destruct (Z.ltb_spec (k + 10) 10); [|lia].
  change (Z.of_nat (List.length units)) with 10.
  destruct (Z.ltb_spec k 0); [|lia].
  destruct (Z.ltb_spec (k + 10) 0); [lia|]. reflexivity.
Qed.

Lemma negative_number_wraps_in_units_witness :
  convert_two_digits (-1) = Ok "Nine"%string.
Proof.
  rewrite (negative_number_wraps_in_units (-1)) by lia. reflexivity.
Defined.

(** X16.  The remainder below a thousand, or below a hundred thousand, is
    not spelled when it is 100 or more: it appears in the text as its
    decimal digits. *)
Theorem large_remainder_is_printed_in_digits r :
  (1000 <= r < 100000 -> 100 <= r mod 1000 ->
   exists h, convert_two_digits (r / 1000) = Ok h /\
             rupees_text r = Ok (h +:+ " Thousand " +:+ str (r mod 1000)))
  /\
  (100000 <= r -> 100 <= r mod 100000 ->
   exists h, convert_two_digits (r / 100000) = Ok h /\
             rupees_text r = Ok (h +:+ " Lakh " +:+ str (r mod 100000))).
Proof.
  split; intros Hr Hm.
  - destruct (convert_two_digits_total (r / 1000)) as (h & Eh & _).
    { apply Z.div_pos; lia. }
    exists h. split; [exact Eh|]. unfold rupees_text.
    destruct (Z.eqb_spec r 0); [lia|].
    destruct (Z.ltb_spec r 100); [lia|].
    destruct (Z.ltb_spec r 1000); [lia|].
    destruct (Z.ltb_spec r 100000); [|lia].
    rewrite Eh, (convert_two_digits_large _ Hm). reflexivity.
  - destruct (convert_two_digits_total (r / 100000)) as (h & Eh & _).
    { apply Z.div_pos; lia. }
    exists h. split; [exact Eh|]. unfold rupees_text.
    destruct (Z.eqb_spec r 0); [lia|].
    destruct (Z.ltb_spec r 100); [lia|].
    destruct (Z.ltb_spec r 1000); [lia|].
    destruct (Z.ltb_spec r 100000); [lia|].
    rewrite Eh, (convert_two_digits_large _ Hm). reflexivity.
Qed.

(** X17.  A number from 20 to 99 is spelled as the word of its tens,
    followed by a blank and the word of its unit when the unit is not
    zero. *)
Theorem twenty_to_ninety_nine_is_tens_then_unit k :
  20 <= k < 100 ->
  exists t u,
    index tens (k / 10) = Ok t /\ t <> ""%string /\
    index units (k mod 10) = Ok u /\
    convert_two_digits k
    = Ok (if 0 <? k mod 10 then t +:+ " " +:+ u else t).
Proof.
  intros Hk.
  assert (H : (k <? 20) || tens_then_unit k = true).
  { apply (below_forallb (fun k => (k <? 20) || tens_then_unit k) 100);
      [vm_compute; reflexivity | lia]. }
  destruct (Z.ltb_spec k 20); [lia|]. simpl in H.
  unfold tens_then_unit in H.
  destruct (convert_two_digits k) as [w|]; [|discriminate].
  destruct (index tens (k / 10)) as [t|]; [|discriminate].
  destruct (index units (k mod 10)) as [u|]; [|discriminate].
  apply andb_true_iff in H as (H1 & H2).
  apply String.eqb_eq in H1. subst w.
  exists t, u. repeat split.
  intros ->. discriminate.
Qed.

Lemma twenty_to_ninety_nine_is_tens_then_unit_witness :
  exists t u,
    index tens (42 / 10) = Ok t /\ t <> ""%string /\
    index units (42 mod 10) = Ok u /\
    convert_two_digits 42 = Ok (if 0 <? 42 mod 10 then t +:+ " " +:+ u else t).
Proof.
  apply twenty_to_ninety_nine_is_tens_then_unit. lia.
Defined.

(** X18.  For an amount other than 0 whose whole rupees are 0 (an amount
    below one rupee) no rupee word is written: the text starts with
    " Rupees", blank included. *)
Theorem amount_below_one_rupee_has_no_rupee_word n s :
  PrimFloat.eqb n 0 = false ->
  int_of_float n = Ok 0 ->
  number_to_words n = Ok s ->
  exists rest, s = " Rupees" +:+ rest.
Proof.
  intros Hn Hr Hs. unfold number_to_words in Hs. rewrite Hn, Hr in Hs.
  cbn [bind] in Hs.
  destruct (round _) as [paise|]; cbn [bind] in Hs; [|discriminate].
  change (rupees_text 0) with (@Ok string "") in Hs. cbn [bind] in Hs.
  change (strip "") with ""%string in Hs.
  destruct (0 <? paise).
  - destruct (convert_two_digits paise) as [p|]; cbn [bind] in Hs;
      [|discriminate].
    injection Hs as <-. exists (" and " +:+ p +:+ " Paise"). reflexivity.
  - injection Hs as <-. exists ""%string. reflexivity.
Qed.

Lemma amount_below_one_rupee_has_no_rupee_word_witness :
  number_to_words 0.5 = Ok " Rupees and Fifty Paise"%string /\
  exists rest, " Rupees and Fifty Paise"%string = " Rupees" +:+ rest.
Proof.
  assert (E : number_to_words 0.5 = Ok " Rupees and Fifty Paise"%string)
    by (vm_compute; reflexivity).
  split; [exact E|].
  refine (amount_below_one_rupee_has_no_rupee_word 0.5 _ _ _ E);
    vm_compute; reflexivity.
Defined.

End Words.

(* ================================================================== *)
(** ** Properties of the product cards *)
(* ================================================================== *)

Section Cards.
Import Py Database ProductWidget.

Ltac settle_row Hw :=
  repeat match type of Hw with
    | context [index ?l ?k] =>
        let v := eval vm_compute in (index l k) in
        change (index l k) with v in Hw
    | context [longer_than ?l ?k] =>
        let v := eval vm_compute in (longer_than l k) in
        change (longer_than l k) with v in Hw
    end.

Lemma row_values product_id p :
  index (row product_id p) 0 = Ok (SqlInt product_id) /\
  index (row product_id p) 1 = Ok (SqlText (Database.name p)) /\
  index (row product_id p) 2 = Ok (SqlText (Database.description p)) /\
  index (row product_id p) 3 = Ok (SqlReal (price_per_hour p)) /\
  index (row product_id p) 4 = Ok (SqlText (Database.image_path p)) /\
  index (row product_id p) 5 = Ok (SqlInt (stock_quantity p)) /\
  index (row product_id p) 6 = Ok (SqlInt (Database.is_available p)) /\
  longer_than (row product_id p) 4 = true /\
  longer_than (row product_id p) 5 = true /\
  longer_than (row product_id p) 6 = true.
Proof. repeat split. Qed.

Lemma init_row float_of_str product_id p :
  init float_of_str (row product_id p) = Ok (card_of product_id p).
Proof.
  destruct (row_values product_id p)
    as (E0 & E1 & E2 & E3 & E4 & E5 & E6 & L4 & L5 & L6).
  unfold init, card_of.
  rewrite E0, E1, E2, E3, E4, E5, E6, L4, L5, L6.
  cbn [bind or_default float_of_value int_of_value truthy].
  assert (D : (if negb (String.eqb (Database.description p) "")
               then SqlText (Database.description p) else SqlText "")
              = SqlText (Database.description p)).
  { destruct (String.eqb_spec (Database.description p) ""); simpl;
      congruence. }
  assert (I : (if negb (String.eqb (Database.image_path p) "")
               then SqlText (Database.image_path p) else SqlText "")
              = SqlText (Database.image_path p)).
  { destruct (String.eqb_spec (Database.image_path p) ""); simpl;
      congruence. }
  assert (S : (if negb (stock_quantity p =? 0) then Ok (stock_quantity p)
               else Ok 0) = Ok (stock_quantity p)).
  { destruct (Z.eqb_spec (stock_quantity p) 0); simpl; congruence. }
  rewrite D, I, S. cbn [bind or_default].
  do 2 f_equal.
  destruct (negb (Database.is_available p =? 0)); simpl; [|reflexivity].
  destruct (Z.leb_spec (stock_quantity p) 0), (Z.ltb_spec 0 (stock_quantity p));
    simpl; try reflexivity; lia.
Qed.

(** X19.  The card built from a row of the table shows what the table
    holds: its stock is column 5 (stock_quantity), it counts as available
    exactly when column 6 (is_available) is not 0, and its "Add to Cart"
    button is enabled exactly when it is available and has a positive
    stock.  Building it never fails. *)
Theorem card_shows_the_table_row float_of_str product_id p :
  exists w,
    init float_of_str (row product_id p) = Ok w /\
    ProductWidget.product_id w = SqlInt product_id /\
    ProductWidget.name w = SqlText (Database.name p) /\
    ProductWidget.price w = price_per_hour p /\
    stock w = stock_quantity p /\
    (ProductWidget.is_available w = true <-> Database.is_available p <> 0) /\
    (add_enabled w = true
     <-> Database.is_available p <> 0 /\ 0 < stock_quantity p).
Proof.
  exists (card_of product_id p). split; [apply init_row|].
  unfold card_of; simpl. repeat split; try reflexivity.
  - destruct (Z.eqb_spec (Database.is_available p) 0); simpl; congruence.
  - destruct (Z.eqb_spec (Database.is_available p) 0); simpl; congruence.
  - destruct (Z.eqb_spec (Database.is_available p) 0); simpl in *; congruence.
  - destruct (Z.eqb_spec (Database.is_available p) 0); simpl in *;
      [discriminate|].
    destruct (Z.ltb_spec 0 (stock_quantity p)); [lia | discriminate].
  - intros (Ha & Hs).
    destruct (Z.eqb_spec (Database.is_available p) 0); [congruence|].
    destruct (Z.ltb_spec 0 (stock_quantity p)); [reflexivity | lia].
Qed.

(** X20.  A row cut short: with fewer than four values the card cannot be
    built (IndexError); with four to six values it can, but its "Add to
    Cart" button is never enabled, the missing stock counting as 0 and the
    missing availability flag as false. *)
Theorem short_row_gives_no_active_card float_of_str product_data :
  ((List.length product_data < 4)%nat ->
   init float_of_str product_data = Raise IndexError) /\
  ((4 <= List.length product_data <= 6)%nat ->
   forall w, init float_of_str product_data = Ok w -> add_enabled w = false).
Proof.
  split.
  - intros H.
    destruct product_data as [|a [|b [|c [|d rest]]]]; simpl in H;
      try lia; reflexivity.
  - intros H w Hw.
    destruct product_data as [|a [|b [|c [|d [|e [|f [|g rest]]]]]]];
      simpl in H; try lia; unfold init in Hw; settle_row Hw;
      cbn [bind] in Hw.
    + destruct (or_default _ _ _) as [pr|]; cbn [bind or_default] in Hw;
        [|discriminate].
      injection Hw as <-. reflexivity.
    + destruct (or_default _ _ _) as [pr|]; cbn [bind or_default] in Hw;
        [|discriminate].
      injection Hw as <-. reflexivity.
    + destruct (or_default _ _ (float_of_value _ _)) as [pr|];
        cbn [bind] in Hw; [|discriminate].
      destruct (or_default _ _ _) as [st|]; cbn [bind or_default] in Hw;
        [|discriminate].
      injection Hw as <-. reflexivity.
Qed.

Lemma shown_row product_id p :
  shown (row product_id p) = negb (Database.is_available p =? 0).
Proof. reflexivity. Qed.

(** X21.  Loading the store from rows of the table never fails and builds
    one card for each product whose availability flag is not 0, in the
    order of the rows and with the values of X19; the count it reports is
    the number of cards built. *)
Theorem load_shows_the_available_products float_of_str
    (l : list (Z * product)) :
  let rows := map (fun ip => row (fst ip) (snd ip)) l in
  let available :=
    List.filter (fun ip => negb (Database.is_available (snd ip) =? 0)) l in
  load_products float_of_str rows
  = Ok (map (fun ip => card_of (fst ip) (snd ip)) available) /\
  results_count rows = List.length available.
Proof.
  cbv zeta. unfold results_count.
  induction l as [|[i p] rest (IH1 & IH2)]; [split; reflexivity|].
  cbn [map fst snd load_products List.filter].
  rewrite shown_row.
  destruct (negb (Database.is_available p =? 0)).
  - rewrite init_row, IH1. cbn [bind map fst snd List.length].
    split; [reflexivity | now rewrite IH2].
  - split; [exact IH1 | exact IH2].
Qed.

End Cards.

(* ================================================================== *)
(** ** Properties of the customer form and of the contact dialog *)
(* ================================================================== *)

Section Forms.
Import Py.









End Forms.

(* ================================================================== *)
(** ** Properties of the database methods *)
(* ================================================================== *)

Section TablesProperties.
Import Tables.





Lemma step_sequence o t : sequence t <= sequence (step o t).
Proof.
  destruct o; cbn [step add_product delete_product update_contact_info
                   fst sequence]; try lia.
  - unfold next_id.
    pose proof (Z.le_max_l (sequence t) (max_id (products t))). lia.
  - unfold update_product. destruct (any_given c); cbn [fst sequence]; lia.
  - unfold init_db. destruct (contact_info t); cbn [sequence]; lia.
Qed.

Lemma run_sequence ops : forall t, sequence t <= sequence (run ops t).
Proof.
  unfold run. induction ops as [|o rest IH]; intros t; simpl; [lia|].
  pose proof (step_sequence o t). specialize (IH (step o t)). lia.
Qed.

(** X25.  Product ids are never used twice: whatever is added, deleted or
    updated between two calls of [add_product], the later call returns a
    greater id than the earlier one, even when the earlier row has been
    deleted in the meantime. *)
Theorem product_ids_are_never_reused now1 name1 price1 description1 image1
    stock1 now2 name2 price2 description2 image2 stock2 ops t :
  let r1 := add_product now1 name1 price1 description1 image1 stock1 t in
  let r2 := add_product now2 name2 price2 description2 image2 stock2
              (run ops (fst r1)) in
  snd r1 < snd r2.
Proof.
  cbv zeta.
  set (t1 := fst (add_product now1 name1 price1 description1 image1 stock1 t)).
  assert (E1 : snd (add_product now1 name1 price1 description1 image1 stock1 t)
               = sequence t1) by reflexivity.
  assert (E2 : snd (add_product now2 name2 price2 description2 image2 stock2
                      (run ops t1)) = next_id (run ops t1)) by reflexivity.
  rewrite E1, E2. unfold next_id.
  pose proof (run_sequence ops t1).
  pose proof (Z.le_max_l (sequence (run ops t1))
                (max_id (products (run ops t1)))).
  lia.
Qed.

(** X26.  [delete_product] reports whether a row with the id existed;
    afterwards that id reads as absent, every other row reads as before,
    and the count has gone down by one exactly when a row was deleted.
    Deleting the same id again reports that nothing was deleted. *)
Theorem delete_product_removes_the_row product_id t :
  let r := delete_product product_id t in
  (snd r = true <-> get_product t product_id <> None) /\
  get_product (fst r) product_id = None /\
  (forall k, k <> product_id -> get_product (fst r) k = get_product t k) /\
  get_product_count (fst r)
  = get_product_count t - (if snd r then 1 else 0) /\
  snd (delete_product product_id (fst r)) = false.
Proof.
  cbv zeta. unfold delete_product, get_product, get_product_count.
  cbn [fst snd products]. unfold Database.get_product.
  split; [|split; [|split; [|split]]].
  - destruct (products t !! product_id); simpl; split; congruence.
  - now rewrite lookup_delete_eq.
  - intros k Hk. now rewrite lookup_delete_ne by congruence.
  - destruct (products t !! product_id) as [p|] eqn:E.
    + assert (I : is_Some (products t !! product_id)) by (rewrite E; eauto).
      pose proof (map_size_delete_Some _ _ I) as S.
      pose proof (map_size_ne_0_lookup_2 _ _ I) as N.
      lia.
    + rewrite map_size_delete_None by exact E. lia.
  - now rewrite lookup_delete_eq.
Qed.


End TablesProperties.

Section ContactAndAvailability.
Import Tables.

(** X28.  Opening the database again ([init_db] runs each time a
    [Database] object is made: by the cart, by the store and by every
    invoice) changes neither the products nor the id counter nor the
    contact information that [get_contact_info] returns -- the row it
    inserts into an empty contact table holds the very values that
    [get_contact_info] falls back on -- and doing it twice is the same as
    doing it once.  A contact row written before is still the one read
    afterwards. *)
Theorem reopening_the_database_changes_nothing_read t :
  get_contact_info (init_db t) = get_contact_info t /\
  products (init_db t) = products t /\
  sequence (init_db t) = sequence t /\
  init_db (init_db t) = init_db t /\
  (forall phone email address,
     get_contact_info (init_db (update_contact_info phone email address t))
     = {| Tables.phone := phone; Tables.email := email;
          Tables.address := address |}).
Proof.
  assert (I : init_db t = t \/
              (contact_info t = [] /\
               init_db t = {| products := products t; sequence := sequence t;
                              contact_info := [default_contact] |})).
  { unfold init_db. destruct (contact_info t); [right | left]; auto. }
  split; [|split; [|split; [|split]]].
  - destruct I as [-> | (E & ->)]; [reflexivity|].
    unfold get_contact_info. rewrite E. reflexivity.
  - destruct I as [-> | (_ & ->)]; reflexivity.
  - destruct I as [-> | (_ & ->)]; reflexivity.
  - destruct I as [E | (_ & ->)]; [now rewrite !E | reflexivity].
  - intros phone email address. reflexivity.
Qed.

Lemma toggle_lookup product_id new_status t p :
  products t !! product_id = Some p ->
  products (AdminPanel.toggle_availability product_id new_status t)
  = alter (Database.set_available (if new_status then 1 else 0)) product_id
      (products t).
Proof.
  intros H. unfold AdminPanel.toggle_availability, get_product,
    Database.get_product. rewrite H. cbn [fmap option_fmap option_map].
  unfold update_product.
  cbv [any_given is_given new_name new_price new_description new_image_path
       new_stock new_available orb].
  cbn [fst products].
  apply map_eq. intros k. destruct (decide (k = product_id)) as [->|Hk].
  - rewrite !lookup_alter_eq, H. reflexivity.
  - now rewrite !lookup_alter_ne by congruence.
Qed.

(** X29.  The availability switch of the admin panel does nothing for an
    id that no row has; for a row that exists it sets the flag to 1 or 0
    and leaves the stock, the other columns and the other rows as they
    are. *)
Theorem toggle_availability_sets_only_the_flag product_id new_status t :
  (get_product t product_id = None ->
   AdminPanel.toggle_availability product_id new_status t = t) /\
  (forall p, products t !! product_id = Some p ->
     products (AdminPanel.toggle_availability product_id new_status t)
       !! product_id
     = Some (Database.set_available (if new_status then 1 else 0) p)) /\
  (forall k, k <> product_id ->
     products (AdminPanel.toggle_availability product_id new_status t) !! k
     = products t !! k).
Proof.
  split; [|split].
  - unfold AdminPanel.toggle_availability. now intros ->.
  - intros p H. rewrite (toggle_lookup _ _ _ _ H), lookup_alter_eq, H.
    reflexivity.
  - intros k Hk.
    destruct (products t !! product_id) as [p|] eqn:E.
    + rewrite (toggle_lookup _ _ _ _ E). now rewrite lookup_alter_ne by congruence.
    + unfold AdminPanel.toggle_availability, get_product,
        Database.get_product. now rewrite E.
Qed.

(** X30.  Once a product is switched to unavailable in the admin panel, a
    cart that holds it (one line, quantity at least one) cannot be checked
    out by either button: the stock check reports 0 units available,
    whatever the stock, and nothing changes. *)
Theorem unavailable_product_cannot_be_checked_out t p it s today events a :
  products t !! Item.id it = Some p ->
  1 <= Item.quantity it ->
  CartWidget.cart_items s = [it] ->
  CartWidget.db s
  = products (AdminPanel.toggle_availability (Item.id it) false t) ->
  CartWidget.checkout a s
  = (s, [CartWidget.StockIssue (Database.SqlInt 0) (Item.name it)
           (Item.quantity it)]) /\
  CartWidget.process_advance_payment today events a s
  = (s, [CartWidget.StockIssue (Database.SqlInt 0) (Item.name it)
           (Item.quantity it)]).
Proof.
  intros Hp Hq Hc Hd.
  assert (L : CartWidget.db s !! Item.id it
              = Some (Database.set_available 0 p)).
  { rewrite Hd, (toggle_lookup _ _ _ _ Hp), lookup_alter_eq, Hp.
    reflexivity. }
  assert (E : CartWidget.check_stock (CartWidget.db s) [it]
              = Py.Ok (Some (CartWidget.StockIssue (Database.SqlInt 0)
                               (Item.name it) (Item.quantity it)))).
  { rewrite (check_stock_one_line _ _ _ L).
    change (Database.is_available (Database.set_available 0 p)) with 0.
    destruct (Z.ltb_spec 0 (Item.quantity it)); [reflexivity | lia]. }
  unfold CartWidget.checkout, CartWidget.process_advance_payment.
  rewrite check_stock_advance_eq, Hc, E. split; reflexivity.
Qed.

Lemma unavailable_product_cannot_be_checked_out_witness :
  let t := {| products := Shop.products; sequence := 1;
              contact_info := [default_contact] |} in
  let s := {| CartWidget.db :=
                products (AdminPanel.toggle_availability 1 false t);
              CartWidget.cart_items := CartWidget.cart_items (Shop.chairs 1);
              CartWidget.files := [] |} in
  CartWidget.checkout Shop.smooth s
  = (s, [CartWidget.StockIssue (Database.SqlInt 0) "Chair" 1]).
Proof.
  intros t s.
  refine (proj1 (unavailable_product_cannot_be_checked_out t Shop.chair
                   {| Item.id := 1; Item.name := "Chair"; Item.price := 500;
                      Item.quantity := 1 |} s 0 [] Shop.smooth _ _ _ _)).
  - vm_compute. reflexivity.
  - simpl. lia.
  - vm_compute. reflexivity.
  - reflexivity.
Defined.

End ContactAndAvailability.
